(** * Mecanum drive plugin: kinematics, odometry and command hand-over

    A shallow embedding of [neo_gazebo_plugins/ros/src/mecanum_drive_plugin.cpp].

    Conventions of the embedding:
    - a C++ [double] or [float] is a real number ([R]); rounding, infinities
      and NaN are outside the model, so every equation below is an equation of
      exact arithmetic; where a property depends on rounding, the same
      statements are evaluated in IEEE binary64 in the module [Double];
    - the simulated time ([gazebo::Time], read through [Double()]) is a real
      number of seconds;
    - the objects of the simulation host (joints, the XML configuration node,
      the parent model, the ROS publishers) are not part of the repository:
      joints are reached through the interface [JointHost], every call into
      the host is recorded in order in the ghost field [host_calls], and the
      configuration node is the list of its child elements;
    - [gzthrow] is the [Throw] result of [Result]. *)

From Stdlib Require Import Reals Lra Lia List String Bool Arith.
From Stdlib Require Floats.
Import ListNotations.
Open Scope R_scope.

Set Implicit Arguments.

(** ** Data *)

(** [enum { FRONT_RIGHT, FRONT_LEFT, BACK_RIGHT, BACK_LEFT }] *)
Inductive Wheel : Type := FRONT_RIGHT | FRONT_LEFT | BACK_RIGHT | BACK_LEFT.

(** A C array of four elements indexed by the enumeration, in enumeration
    order: [wheelSpeed[4]] and [joints[4]]. *)
Record Quad (A : Type) : Type := mkQuad
  { slot_FRONT_RIGHT : A; slot_FRONT_LEFT : A; slot_BACK_RIGHT : A; slot_BACK_LEFT : A }.

Definition idx {A : Type} (q : Quad A) (w : Wheel) : A :=
  match w with
  | FRONT_RIGHT => slot_FRONT_RIGHT q
  | FRONT_LEFT => slot_FRONT_LEFT q
  | BACK_RIGHT => slot_BACK_RIGHT q
  | BACK_LEFT => slot_BACK_LEFT q
  end.

Definition upd {A : Type} (q : Quad A) (w : Wheel) (a : A) : Quad A :=
  match w with
  | FRONT_RIGHT => mkQuad a (slot_FRONT_LEFT q) (slot_BACK_RIGHT q) (slot_BACK_LEFT q)
  | FRONT_LEFT => mkQuad (slot_FRONT_RIGHT q) a (slot_BACK_RIGHT q) (slot_BACK_LEFT q)
  | BACK_RIGHT => mkQuad (slot_FRONT_RIGHT q) (slot_FRONT_LEFT q) a (slot_BACK_LEFT q)
  | BACK_LEFT => mkQuad (slot_FRONT_RIGHT q) (slot_FRONT_LEFT q) (slot_BACK_RIGHT q) a
  end.

Definition quad_map {A B : Type} (f : A -> B) (q : Quad A) : Quad B :=
  mkQuad (f (slot_FRONT_RIGHT q)) (f (slot_FRONT_LEFT q))
         (f (slot_BACK_RIGHT q)) (f (slot_BACK_LEFT q)).

(** [double odomPose[3]], [double odomVel[3]]: x, y and heading. *)
Record Vec3 : Type := mkVec3 { at0 : R; at1 : R; at2 : R }.

(** [geometry_msgs::Twist]. *)
Record Vector3 : Type := mkVector3 { x : R; y : R; z : R }.
Record Twist : Type := mkTwist { linear : Vector3; angular : Vector3 }.

(** The part of [libgazebo::PositionIface::data] the plugin reads or writes. *)
Record Pose3 : Type := mkPose3
  { pos : Vector3; roll : R; pitch : R; yaw : R }.
Record Velocity3 : Type := mkVelocity3 { vel_pos : Vector3; vel_yaw : R }.
Record PositionData : Type := mkPositionData
  { head_time : R; pose : Pose3; velocity : Velocity3; stall : Z }.

(** The pose and the twist [publish_odometry] writes into [odom_]: position x
    and y, the orientation as the three angles handed to the host's
    [Quatern::SetFromEuler], linear x and y and angular z. *)
Record OdomPose : Type := mkOdomPose
  { position_x : R; position_y : R; orientation_euler : Vec3 }.
Record OdomTwist : Type := mkOdomTwist
  { twist_linear_x : R; twist_linear_y : R; twist_angular_z : R }.

(** [nav_msgs::Odometry] as [publish_odometry] fills it. Its header (the
    stamp of the ROS clock and the frame names resolved by tf) is the
    transport's and is not recorded. *)
Record Odometry : Type := mkOdometry
  { pose_pose : OdomPose; twist_twist : OdomTwist }.

(** [gazebo::ModelState]: the pose and twist copied from [odom_], and the
    model name. *)
Record ModelState : Type := mkModelState
  { model_pose : OdomPose; model_twist : OdomTwist; model_name : string }.

(** Calls into the simulation host and the transport, in program order. *)
Inductive HostCall : Type :=
| lock_lock
| lock_unlock
| Joint_GetVelocity (w : Wheel)
| Joint_SetVelocity (w : Wheel) (v : R)
| Joint_SetMaxForce (w : Wheel) (f : R)
| sendTransform (rpy : Vec3) (translation : Vector3)
| pub_model_state_publish (modelState : ModelState)
| pub_publish (o : Odometry).

(** The joint operations the plugin uses, all on axis 0. *)
Class JointHost (J : Type) : Type :=
  { GetVelocity : J -> R;
    SetVelocity : J -> R -> J;
    SetMaxForce : J -> R -> J }.

(** ** Parameters and configuration *)

(** [ParamT<T>(key, defaultValue, required)]; [value] is what [**p] reads. *)
Record ParamT (T : Type) : Type := mkParamT
  { key : string; defaultValue : T; required : bool; value : T }.

Definition new_ParamT {T : Type} (k : string) (d : T) (req : bool) : ParamT T :=
  mkParamT k d req d.

(** The children of the controller's XML node: textual ones with their text,
    numeric ones with the number their text converts to. *)
Record XMLConfigNode : Type := mkXMLConfigNode
  { text_children : list (string * string);
    float_children : list (string * R) }.

Fixpoint GetNodeValue {T : Type} (k : string) (children : list (string * T)) : option T :=
  match children with
  | [] => None
  | (k', v) :: rest => if String.eqb k k' then Some v else GetNodeValue k rest
  end.

Inductive GazeboError : Type :=
| MissingRequired (k : string)
| GazeboError_msg (msg : string).

Inductive Result (A : Type) : Type :=
| Ok (a : A)
| Throw (e : GazeboError).
Arguments Throw {A} e.

Definition bind {A B : Type} (r : Result A) (k : A -> Result B) : Result B :=
  match r with
  | Ok a => k a
  | Throw e => Throw e
  end.

Notation "'let*' a ':=' r 'in' k" := (bind r (fun a => k))
  (at level 10, a name, r at level 100, k at level 200).

Definition gzthrow {A : Type} (msg : string) : Result A := Throw (GazeboError_msg msg).

(** [ParamT<T>::Load(node)]: the value of the first child named [key]; when
    there is none, the default, unless the parameter is required, in which
    case the host raises. *)
Definition Load {T : Type} (children : list (string * T)) (p : ParamT T) : Result (ParamT T) :=
  match GetNodeValue (key p) children with
  | Some v => Ok (mkParamT (key p) (defaultValue p) (required p) v)
  | None =>
      if required p then Throw (MissingRequired (key p))
      else Ok (mkParamT (key p) (defaultValue p) (required p) (defaultValue p))
  end.

(** The parameters declared between [Param::Begin] and [Param::End]. *)
Record Parameters : Type := mkParameters
  { frontLeftJointNameP : ParamT string;
    frontRightJointNameP : ParamT string;
    backLeftJointNameP : ParamT string;
    backRightJointNameP : ParamT string;
    robotLength : ParamT R;
    robotWidth : ParamT R;
    wheelDiamP : ParamT R;
    torqueP : ParamT R;
    robotNamespaceP : ParamT string;
    topicNameP : ParamT string }.

(** The parent model: its joints by name. [GetJoint] yields [None] for the
    null pointer. *)
Definition Model (J : Type) : Type := list (string * J).

Definition GetJoint {J : Type} (parent_ : Model J) (name : string) : option J :=
  GetNodeValue name parent_.

(** ** The controller object *)

(** [P] is what a slot of [joints] holds: [option J] (a pointer that may be
    null) until [LoadChild] has checked the four of them, [J] afterwards. *)
Record Plugin (P : Type) : Type := mkPlugin
  { parameters : Parameters;
    enableMotors : bool;
    wheelSpeed : Quad R;
    prevUpdateTime : R;
    joints : Quad P;
    x_ : R;
    y_ : R;
    rot_ : R;
    alive_ : bool;
    odomPose : Vec3;
    odomVel : Vec3;
    robotNamespace : string;
    topicName : string;
    pos_iface_ : PositionData;
    host_calls : list HostCall }.

Arguments mkPlugin {P}.

Definition set_prevUpdateTime {P : Type} (t : R) (p : Plugin P) : Plugin P :=
  mkPlugin (parameters p) (enableMotors p) (wheelSpeed p) t (joints p)
           (x_ p) (y_ p) (rot_ p) (alive_ p) (odomPose p) (odomVel p)
           (robotNamespace p) (topicName p) (pos_iface_ p) (host_calls p).

Definition set_joints {P : Type} (js : Quad P) (p : Plugin P) : Plugin P :=
  mkPlugin (parameters p) (enableMotors p) (wheelSpeed p) (prevUpdateTime p) js
           (x_ p) (y_ p) (rot_ p) (alive_ p) (odomPose p) (odomVel p)
           (robotNamespace p) (topicName p) (pos_iface_ p) (host_calls p).

Definition set_odomPose {P : Type} (v : Vec3) (p : Plugin P) : Plugin P :=
  mkPlugin (parameters p) (enableMotors p) (wheelSpeed p) (prevUpdateTime p) (joints p)
           (x_ p) (y_ p) (rot_ p) (alive_ p) v (odomVel p)
           (robotNamespace p) (topicName p) (pos_iface_ p) (host_calls p).

Definition set_odomVel {P : Type} (v : Vec3) (p : Plugin P) : Plugin P :=
  mkPlugin (parameters p) (enableMotors p) (wheelSpeed p) (prevUpdateTime p) (joints p)
           (x_ p) (y_ p) (rot_ p) (alive_ p) (odomPose p) v
           (robotNamespace p) (topicName p) (pos_iface_ p) (host_calls p).

Definition set_alive_ {P : Type} (b : bool) (p : Plugin P) : Plugin P :=
  mkPlugin (parameters p) (enableMotors p) (wheelSpeed p) (prevUpdateTime p) (joints p)
           (x_ p) (y_ p) (rot_ p) b (odomPose p) (odomVel p)
           (robotNamespace p) (topicName p) (pos_iface_ p) (host_calls p).

Definition set_pos_iface_data {P : Type} (d : PositionData) (p : Plugin P) : Plugin P :=
  mkPlugin (parameters p) (enableMotors p) (wheelSpeed p) (prevUpdateTime p) (joints p)
           (x_ p) (y_ p) (rot_ p) (alive_ p) (odomPose p) (odomVel p)
           (robotNamespace p) (topicName p) d (host_calls p).

(** Records one call into the host, after those already made. *)
Definition call {P : Type} (c : HostCall) (p : Plugin P) : Plugin P :=
  mkPlugin (parameters p) (enableMotors p) (wheelSpeed p) (prevUpdateTime p) (joints p)
           (x_ p) (y_ p) (rot_ p) (alive_ p) (odomPose p) (odomVel p)
           (robotNamespace p) (topicName p) (pos_iface_ p) (host_calls p ++ [c]).

(** ** Constructor

    [parent] is the result of the [dynamic_cast<Model*>]; [SimTime] is what
    [Simulator::Instance()->GetSimTime()] returns; [raw] is the object before
    the constructor body runs and supplies the members the body leaves alone
    ([y_], [odomPose], [odomVel], [joints], ...). *)
Definition MecanumDrivePlugin {J : Type} (parent : option (Model J)) (SimTime : R)
    (raw : Plugin (option J)) : Result (Plugin (option J)) :=
  match parent with
  | None => gzthrow "Mecanum_Position2d controller requires a Model as its parent"
  | Some _ =>
      Ok (mkPlugin
            (mkParameters
               (new_ParamT "frontLeftJoint" ""%string true)
               (new_ParamT "frontRightJoint" ""%string true)
               (new_ParamT "backLeftJoint" ""%string true)
               (new_ParamT "backRightJoint" ""%string true)
               (new_ParamT "robotLength" 0.25 true)
               (new_ParamT "robotLength" 0.27 true)
               (new_ParamT "wheelDiameter" 0.15 true)
               (new_ParamT "torque" 10.0 true)
               (new_ParamT "robotNamespace" ""%string false)
               (new_ParamT "topicName" ""%string true))
            true
            (mkQuad 0 0 0 0)
            SimTime
            (joints raw)
            0 (y_ raw) 0
            true
            (odomPose raw) (odomVel raw)
            (robotNamespace raw) (topicName raw) (pos_iface_ raw) (host_calls raw))
  end.

(** ** LoadChild

    [parent_] is the model stored by the constructor and [iface] the data of
    [GetIface("position")]. The ROS node, the transform broadcaster and the
    subscription are host objects and leave no trace in the state. *)
Definition LoadChild {J : Type} (node : XMLConfigNode) (parent_ : Model J)
    (iface : PositionData) (p : Plugin (option J)) : Result (Plugin J) :=
  let ps := parameters p in
  let* fl := Load (text_children node) (frontLeftJointNameP ps) in
  let* fr := Load (text_children node) (frontRightJointNameP ps) in
  let* bl := Load (text_children node) (backLeftJointNameP ps) in
  let* br := Load (text_children node) (backRightJointNameP ps) in
  let* rl := Load (float_children node) (robotLength ps) in
  let* rw := Load (float_children node) (robotWidth ps) in
  let* wd := Load (float_children node) (wheelDiamP ps) in
  let* tq := Load (float_children node) (torqueP ps) in
  let js := mkQuad (GetJoint parent_ (value fr)) (GetJoint parent_ (value fl))
                   (GetJoint parent_ (value br)) (GetJoint parent_ (value bl)) in
  match idx js FRONT_LEFT with
  | None => gzthrow "The controller couldn't get FRONT LEFT hinge joint"
  | Some jfl =>
  match idx js FRONT_RIGHT with
  | None => gzthrow "The controller couldn't get FRONT RIGHT hinge joint"
  | Some jfr =>
  match idx js BACK_LEFT with
  | None => gzthrow "The controller couldn't get BACK LEFT hinge joint"
  | Some jbl =>
  match idx js BACK_RIGHT with
  | None => gzthrow "The controller couldn't get BACK RIGHT hinge joint"
  | Some jbr =>
      let* ns := Load (text_children node) (robotNamespaceP ps) in
      let* tn := Load (text_children node) (topicNameP ps) in
      Ok (mkPlugin (mkParameters fl fr bl br rl rw wd tq ns tn)
                   (enableMotors p) (wheelSpeed p) (prevUpdateTime p)
                   (mkQuad jfr jfl jbr jbl)
                   (x_ p) (y_ p) (rot_ p) (alive_ p) (odomPose p) (odomVel p)
                   (value ns) (value tn) iface (host_calls p))
  end end end end.

(** ** InitChild and ResetChild *)
Definition InitChild {P : Type} (p : Plugin P) : Plugin P :=
  set_odomVel (mkVec3 0 0 0) (set_odomPose (mkVec3 0 0 0) p).


(** ** Command hand-over *)

(** [cmdVelCallback]: the three stores happen between [lock.lock()] and
    [lock.unlock()]. *)
Definition cmdVelCallback {P : Type} (cmd_msg : Twist) (p : Plugin P) : Plugin P :=
  let p := call lock_lock p in
  let p := mkPlugin (parameters p) (enableMotors p) (wheelSpeed p) (prevUpdateTime p)
             (joints p)
             (x (linear cmd_msg)) (y (linear cmd_msg)) (z (angular cmd_msg))
             (alive_ p) (odomPose p) (odomVel p)
             (robotNamespace p) (topicName p) (pos_iface_ p) (host_calls p) in
  call lock_unlock p.

(** [GetPositionCmd]: reads the command and the geometry under the lock and
    assigns the four wheel targets. *)
Definition GetPositionCmd {P : Type} (p : Plugin P) : Plugin P :=
  let p := call lock_lock p in
  let rl := value (robotLength (parameters p)) in
  let rw := value (robotWidth (parameters p)) in
  let wd := value (wheelDiamP (parameters p)) in
  let l_total := rl + rw in
  let vx := x_ p in
  let vy := y_ p in
  let va := rot_ p in
  let ws := wheelSpeed p in
  let ws := upd ws FRONT_LEFT ((vx + vy - l_total * va) * 2 / wd) in
  let ws := upd ws FRONT_RIGHT ((vx - vy + l_total * va) * 2 / wd) in
  let ws := upd ws BACK_LEFT ((vx - vy - l_total * va) * 2 / wd) in
  let ws := upd ws BACK_RIGHT ((vx + vy + l_total * va) * 2 / wd) in
  let p := mkPlugin (parameters p) true ws
             (prevUpdateTime p) (joints p) (x_ p) (y_ p) (rot_ p)
             (alive_ p) (odomPose p) (odomVel p)
             (robotNamespace p) (topicName p) (pos_iface_ p) (host_calls p) in
  call lock_unlock p.

(** ** Odometry *)

(** Modelled from the spec: [NORMALIZE] is a macro of the simulation host's
    headers, which are not part of the repository; the specification says
    that it wraps an angle to the range (-pi, pi]. The angle is moved by the
    multiple of 2 pi that brings it into that range. *)
Definition NORMALIZE (a : R) : R := a + 2 * PI * IZR (up ((- a - PI) / (2 * PI))).

(** The body velocity of [UpdateChild] from four wheel velocities: the
    statements from "Distance travelled by wheel" to the assignment of [va]. *)
Definition body_velocity (rl rw wd : R) (wheel_velocity : Quad R) : Vec3 :=
  let d1 := wd / 2 * idx wheel_velocity FRONT_LEFT in
  let d2 := wd / 2 * idx wheel_velocity FRONT_RIGHT in
  let d3 := wd / 2 * idx wheel_velocity BACK_LEFT in
  let d4 := wd / 2 * idx wheel_velocity BACK_RIGHT in
  let vx := (d1 + d2 + d3 + d4) / 4 in
  let vy := (d1 - d2 - d3 + d4) / 4 in
  let va := 1 / (rl + rw) * (- d1 + d2 - d3 + d4) / 4 in
  mkVec3 vx vy va.

(** "Compute odometric pose": the three [+=] on [odomPose], in order; the
    first two read the heading before the third changes it. *)
Definition integrate_pose (odomPose0 : Vec3) (vx vy va stepTime : R) : Vec3 :=
  let o := odomPose0 in
  let o := mkVec3 (at0 o + (vx * cos (at2 o) - vy * sin (at2 o)) * stepTime) (at1 o) (at2 o) in
  let o := mkVec3 (at0 o) (at1 o + (vx * sin (at2 o) + vy * cos (at2 o)) * stepTime) (at2 o) in
  let o := mkVec3 (at0 o) (at1 o) (at2 o + va * stepTime) in
  o.

(** "Compute odometric pose" and "Compute odometric instantaneous velocity":
    the update of [odomPose] and [odomVel] from a body velocity and the time
    elapsed since the previous step. *)
Definition compute_odometry {P : Type} (vx vy va stepTime : R) (p : Plugin P) : Plugin P :=
  let p := set_odomPose (integrate_pose (odomPose p) vx vy va stepTime) p in
  set_odomVel (mkVec3 vx vy va) p.

(** [write_position_data]; [SimTime] is the simulator's clock. *)
Definition write_position_data {P : Type} (SimTime : R) (p : Plugin P) : Plugin P :=
  let d := pos_iface_ p in
  let d := mkPositionData SimTime (pose d) (velocity d) (stall d) in
  let d := mkPositionData (head_time d)
             (mkPose3 (mkVector3 (at0 (odomPose p)) (y (pos (pose d))) (z (pos (pose d))))
                      (roll (pose d)) (pitch (pose d)) (yaw (pose d)))
             (velocity d) (stall d) in
  let d := mkPositionData (head_time d)
             (mkPose3 (mkVector3 (x (pos (pose d))) (at1 (odomPose p)) (z (pos (pose d))))
                      (roll (pose d)) (pitch (pose d)) (yaw (pose d)))
             (velocity d) (stall d) in
  let d := mkPositionData (head_time d)
             (mkPose3 (pos (pose d)) (roll (pose d)) (pitch (pose d))
                      (NORMALIZE (at2 (odomPose p))))
             (velocity d) (stall d) in
  let d := mkPositionData (head_time d) (pose d)
             (mkVelocity3 (mkVector3 (at0 (odomVel p)) (at1 (odomVel p))
                                     (z (vel_pos (velocity d))))
                          (at2 (odomVel p)))
             (stall d) in
  let d := mkPositionData (head_time d) (pose d) (velocity d) 0%Z in
  set_pos_iface_data d p.

(** [publish_odometry]: everything it sends is read from [pos_iface_]. *)
Definition publish_odometry {P : Type} (p : Plugin P) : Plugin P :=
  let d := pos_iface_ p in
  let rpy := mkVec3 (roll (pose d)) (pitch (pose d)) (yaw (pose d)) in
  let p := call (sendTransform rpy (pos (pose d))) p in
  let odom_ :=
    mkOdometry (mkOdomPose (x (pos (pose d))) (y (pos (pose d))) rpy)
               (mkOdomTwist (x (vel_pos (velocity d))) (y (vel_pos (velocity d)))
                            (vel_yaw (velocity d))) in
  let modelState :=
    mkModelState (pose_pose odom_) (twist_twist odom_) "robot_description" in
  let p := call (pub_model_state_publish modelState) p in
  call (pub_publish odom_) p.

(** ** UpdateChild

    [SimTime] is the simulator's clock during the step. *)
Definition UpdateChild {J : Type} `{JointHost J} (SimTime : R) (p : Plugin J) : Plugin J :=
  let p := GetPositionCmd p in
  let rl := value (robotLength (parameters p)) in
  let rw := value (robotWidth (parameters p)) in
  let wd := value (wheelDiamP (parameters p)) in
  let stepTime := SimTime - prevUpdateTime p in
  let p := set_prevUpdateTime SimTime p in
  (* Distance travelled by wheel *)
  let p := call (Joint_GetVelocity FRONT_LEFT) p in
  let p := call (Joint_GetVelocity FRONT_RIGHT) p in
  let p := call (Joint_GetVelocity BACK_LEFT) p in
  let p := call (Joint_GetVelocity BACK_RIGHT) p in
  let v := body_velocity rl rw wd (quad_map GetVelocity (joints p)) in
  let p := compute_odometry (at0 v) (at1 v) (at2 v) stepTime p in
  let p :=
    if enableMotors p then
      let set_velocity w p :=
        call (Joint_SetVelocity w (idx (wheelSpeed p) w))
             (set_joints (upd (joints p) w (SetVelocity (idx (joints p) w) (idx (wheelSpeed p) w))) p) in
      let set_max_force w p :=
        call (Joint_SetMaxForce w (value (torqueP (parameters p))))
             (set_joints (upd (joints p) w
                            (SetMaxForce (idx (joints p) w) (value (torqueP (parameters p))))) p) in
      let p := set_velocity FRONT_LEFT p in
      let p := set_velocity FRONT_RIGHT p in
      let p := set_velocity BACK_LEFT p in
      let p := set_velocity BACK_RIGHT p in
      let p := set_max_force FRONT_LEFT p in
      let p := set_max_force FRONT_RIGHT p in
      let p := set_max_force BACK_LEFT p in
      let p := set_max_force BACK_RIGHT p in
      p
    else p in
  let p := write_position_data SimTime p in
  publish_odometry p.

(** [FiniChild]: the queue, the node and the thread are host objects. *)
Definition FiniChild {P : Type} (p : Plugin P) : Plugin P := set_alive_ false p.

(** ** The life of a loaded controller

    Between two steps the command thread may deliver messages and the physics
    engine moves the joints; a step is one call of [UpdateChild]. *)
Inductive Event (J : Type) : Type :=
| Deliver (cmd_msg : Twist)
| Physics (f : Quad J -> Quad J)
| Step (SimTime : R).
Arguments Deliver {J} cmd_msg.
Arguments Step {J} SimTime.

Definition handle {J : Type} `{JointHost J} (p : Plugin J) (e : Event J) : Plugin J :=
  match e with
  | Deliver cmd_msg => cmdVelCallback cmd_msg p
  | Physics f => set_joints (f (joints p)) p
  | Step SimTime => UpdateChild SimTime p
  end.

Definition run {J : Type} `{JointHost J} (events : list (Event J)) (p : Plugin J) : Plugin J :=
  fold_left handle events p.

(** A joint of the physics engine: the motor target and force limit are set by
    the controller, the rate is what the engine last computed. *)
Record MotorJoint : Type := mkMotorJoint
  { rate : R; motor_velocity : R; motor_fmax : R }.

#[export] Instance MotorJoint_host : JointHost MotorJoint :=
  { GetVelocity := fun j => rate j;
    SetVelocity := fun j v => mkMotorJoint (rate j) v (motor_fmax j);
    SetMaxForce := fun j f => mkMotorJoint (rate j) (motor_velocity j) f }.

(** What a configuration node and a parent model must provide for [LoadChild]
    to find every required parameter and every joint. *)
Record Setup (J : Type) : Type := mkSetup
  { frontLeftJoint : string; frontRightJoint : string;
    backLeftJoint : string; backRightJoint : string;
    length_entry : R; wheelDiameter : R; torque : R;
    topic : string;
    joint_FL : J; joint_FR : J; joint_BL : J; joint_BR : J }.

Definition parameters_present {J : Type} (node : XMLConfigNode) (s : Setup J) : Prop :=
  GetNodeValue "frontLeftJoint" (text_children node) = Some (frontLeftJoint s) /\
  GetNodeValue "frontRightJoint" (text_children node) = Some (frontRightJoint s) /\
  GetNodeValue "backLeftJoint" (text_children node) = Some (backLeftJoint s) /\
  GetNodeValue "backRightJoint" (text_children node) = Some (backRightJoint s) /\
  GetNodeValue "robotLength" (float_children node) = Some (length_entry s) /\
  GetNodeValue "wheelDiameter" (float_children node) = Some (wheelDiameter s) /\
  GetNodeValue "torque" (float_children node) = Some (torque s) /\
  GetNodeValue "topicName" (text_children node) = Some (topic s).

Definition joints_present {J : Type} (parent_ : Model J) (s : Setup J) : Prop :=
  GetJoint parent_ (frontLeftJoint s) = Some (joint_FL s) /\
  GetJoint parent_ (frontRightJoint s) = Some (joint_FR s) /\
  GetJoint parent_ (backLeftJoint s) = Some (joint_BL s) /\
  GetJoint parent_ (backRightJoint s) = Some (joint_BR s).

(** The node and the model that realise a setup. *)
Definition node_of {J : Type} (s : Setup J) : XMLConfigNode :=
  mkXMLConfigNode
    [("frontLeftJoint", frontLeftJoint s); ("frontRightJoint", frontRightJoint s);
     ("backLeftJoint", backLeftJoint s); ("backRightJoint", backRightJoint s);
     ("topicName", topic s)]%string
    [("robotLength"%string, length_entry s); ("wheelDiameter"%string, wheelDiameter s);
     ("torque"%string, torque s)].

Definition zero_position_data : PositionData :=
  mkPositionData 0 (mkPose3 (mkVector3 0 0 0) 0 0 0)
                 (mkVelocity3 (mkVector3 0 0 0) 0) 0%Z.

Definition raw_object (J : Type) : Plugin (option J) :=
  mkPlugin
    (mkParameters (new_ParamT "" ""%string false) (new_ParamT "" ""%string false)
                  (new_ParamT "" ""%string false) (new_ParamT "" ""%string false)
                  (new_ParamT "" 0 false) (new_ParamT "" 0 false)
                  (new_ParamT "" 0 false) (new_ParamT "" 0 false)
                  (new_ParamT "" ""%string false) (new_ParamT "" ""%string false))
    false (mkQuad 0 0 0 0) 0 (mkQuad None None None None)
    0 0 0 false (mkVec3 0 0 0) (mkVec3 0 0 0) ""%string ""%string
    zero_position_data [].

(** Construction at simulated time 0, [LoadChild], then [InitChild]. *)
Definition start {J : Type} (node : XMLConfigNode) (parent_ : Model J) : Result (Plugin J) :=
  let* p := MecanumDrivePlugin (Some parent_) 0 (raw_object J) in
  let* p := LoadChild node parent_ zero_position_data p in
  Ok (InitChild p).

(** A concrete robot: four motor joints turning at the given rates. *)
Definition robot (len wd : R) (rates : Quad R) : Setup MotorJoint :=
  mkSetup "fl" "fr" "bl" "br" len wd 10 "cmd_vel"
          (mkMotorJoint (idx rates FRONT_LEFT) 0 0)
          (mkMotorJoint (idx rates FRONT_RIGHT) 0 0)
          (mkMotorJoint (idx rates BACK_LEFT) 0 0)
          (mkMotorJoint (idx rates BACK_RIGHT) 0 0).

Definition model_of {J : Type} (s : Setup J) : Model J :=
  [(frontLeftJoint s, joint_FL s); (frontRightJoint s, joint_FR s);
   (backLeftJoint s, joint_BL s); (backRightJoint s, joint_BR s)].

(** The controller [start] yields for [robot len wd rates]. *)
Definition bench (len wd : R) (rates : Quad R) : Plugin MotorJoint :=
  mkPlugin
    (mkParameters (mkParamT "frontLeftJoint" "" true "fl")
                  (mkParamT "frontRightJoint" "" true "fr")
                  (mkParamT "backLeftJoint" "" true "bl")
                  (mkParamT "backRightJoint" "" true "br")
                  (mkParamT "robotLength" 0.25 true len)
                  (mkParamT "robotLength" 0.27 true len)
                  (mkParamT "wheelDiameter" 0.15 true wd)
                  (mkParamT "torque" 10.0 true 10)
                  (mkParamT "robotNamespace" "" false "")
                  (mkParamT "topicName" "" true "cmd_vel"))%string
    true (mkQuad 0 0 0 0) 0
    (mkQuad (mkMotorJoint (idx rates FRONT_RIGHT) 0 0)
            (mkMotorJoint (idx rates FRONT_LEFT) 0 0)
            (mkMotorJoint (idx rates BACK_RIGHT) 0 0)
            (mkMotorJoint (idx rates BACK_LEFT) 0 0))
    0 0 0 true (mkVec3 0 0 0) (mkVec3 0 0 0) ""%string "cmd_vel"%string
    zero_position_data [].

(** Wheels turning so that the body spins in place at 1 rad/s: length and
    width 0.5 each, wheel diameter 2. *)
Definition spinning : Plugin MotorJoint := bench 0.5 2 (mkQuad 1 (-1) 1 (-1)).

(** The default robot after the command (1, 0, 0) has been delivered. *)
Definition driving_forward : Plugin MotorJoint :=
  cmdVelCallback (mkTwist (mkVector3 1 0 0) (mkVector3 0 0 0))
                 (bench 0.25 0.15 (mkQuad 0 0 0 0)).

(** A robot with length + width = 1 and wheel diameter 2 whose joints turn at
    the targets of the command (1, -2, 0.5) it has received. *)
Definition tracking : Plugin MotorJoint :=
  cmdVelCallback (mkTwist (mkVector3 1 (-2) 0) (mkVector3 0 0 0.5))
                 (bench 0.5 2 (mkQuad 3.5 (-1.5) (-0.5) 2.5)).

(** The order of operations the specification gives for a step, on the calls
    the step makes: every joint is actuated before any joint velocity is
    read back. *)
Definition reads_follow_actuation (calls : list HostCall) : Prop :=
  forall (i j : nat) (w w' : Wheel) (v : R),
    nth_error calls i = Some (Joint_SetVelocity w v) ->
    nth_error calls j = Some (Joint_GetVelocity w') ->
    (i < j)%nat.

(** ** The two threads around the command

    [QueueThread] runs [cmdVelCallback] for each message; the simulation
    thread runs [GetPositionCmd] inside [UpdateChild]. Their accesses to
    [x_], [y_], [rot_] and [lock] are the instructions below, one memory
    access each, interleaved by a scheduler. *)
Module Threads.

Inductive Thread : Type := QueueThread | SimThread.

Inductive Instr : Type :=
| lock_lock_i
| lock_unlock_i
| store_x_ (v : R)
| store_y_ (v : R)
| store_rot_ (v : R)
| load_vx
| load_vy
| load_va.

Definition cmdVelCallback_code (cmd_msg : Twist) : list Instr :=
  [lock_lock_i;
   store_x_ (x (linear cmd_msg));
   store_y_ (y (linear cmd_msg));
   store_rot_ (z (angular cmd_msg));
   lock_unlock_i].

Definition GetPositionCmd_code : list Instr :=
  [lock_lock_i; load_vx; load_vy; load_va; lock_unlock_i].

(** Shared members, the owner of the mutex, the program counters, and the
    locals [vx], [vy], [va] of [GetPositionCmd] ([None] before assignment). *)
Record Machine : Type := mkMachine
  { m_x_ : R; m_y_ : R; m_rot_ : R;
    lock : option Thread;
    queue_pc : nat; sim_pc : nat;
    vx : option R; vy : option R; va : option R }.

Definition pc_of (t : Thread) (m : Machine) : nat :=
  match t with QueueThread => queue_pc m | SimThread => sim_pc m end.

Definition advance_pc (t : Thread) (m : Machine) : Machine :=
  match t with
  | QueueThread =>
      mkMachine (m_x_ m) (m_y_ m) (m_rot_ m) (lock m) (S (queue_pc m)) (sim_pc m)
                (vx m) (vy m) (va m)
  | SimThread =>
      mkMachine (m_x_ m) (m_y_ m) (m_rot_ m) (lock m) (queue_pc m) (S (sim_pc m))
                (vx m) (vy m) (va m)
  end.

(** One instruction of thread [t]; [None] when the thread has to wait for the
    mutex. *)
Definition exec (t : Thread) (i : Instr) (m : Machine) : option Machine :=
  match i with
  | lock_lock_i =>
      match lock m with
      | None => Some (mkMachine (m_x_ m) (m_y_ m) (m_rot_ m) (Some t)
                                (queue_pc m) (sim_pc m) (vx m) (vy m) (va m))
      | Some _ => None
      end
  | lock_unlock_i =>
      Some (mkMachine (m_x_ m) (m_y_ m) (m_rot_ m) None
                      (queue_pc m) (sim_pc m) (vx m) (vy m) (va m))
  | store_x_ v =>
      Some (mkMachine v (m_y_ m) (m_rot_ m) (lock m)
                      (queue_pc m) (sim_pc m) (vx m) (vy m) (va m))
  | store_y_ v =>
      Some (mkMachine (m_x_ m) v (m_rot_ m) (lock m)
                      (queue_pc m) (sim_pc m) (vx m) (vy m) (va m))
  | store_rot_ v =>
      Some (mkMachine (m_x_ m) (m_y_ m) v (lock m)
                      (queue_pc m) (sim_pc m) (vx m) (vy m) (va m))
  | load_vx =>
      Some (mkMachine (m_x_ m) (m_y_ m) (m_rot_ m) (lock m)
                      (queue_pc m) (sim_pc m) (Some (m_x_ m)) (vy m) (va m))
  | load_vy =>
      Some (mkMachine (m_x_ m) (m_y_ m) (m_rot_ m) (lock m)
                      (queue_pc m) (sim_pc m) (vx m) (Some (m_y_ m)) (va m))
  | load_va =>
      Some (mkMachine (m_x_ m) (m_y_ m) (m_rot_ m) (lock m)
                      (queue_pc m) (sim_pc m) (vx m) (vy m) (Some (m_rot_ m)))
  end.

(** The scheduler picks thread [t]: it runs its next instruction, or nothing
    happens when it is blocked or has finished. *)
Definition step (queue_code sim_code : list Instr) (m : Machine) (t : Thread) : Machine :=
  let code := match t with QueueThread => queue_code | SimThread => sim_code end in
  match nth_error code (pc_of t m) with
  | None => m
  | Some i =>
      match exec t i m with
      | None => m
      | Some m' => advance_pc t m'
      end
  end.

Definition run (queue_code sim_code : list Instr) (schedule : list Thread) (m : Machine) : Machine :=
  fold_left (step queue_code sim_code) schedule m.

(** The machine before any thread has moved, with the members as they are. *)
Definition boot (init : Vec3) : Machine :=
  mkMachine (at0 init) (at1 init) (at2 init) None 0 0 None None None.

(** The command [GetPositionCmd] has copied out, once it has read all three. *)
Definition copied (m : Machine) : option Vec3 :=
  match vx m, vy m, va m with
  | Some a, Some b, Some c => Some (mkVec3 a b c)
  | _, _, _ => None
  end.

Definition command (cmd_msg : Twist) : Vec3 :=
  mkVec3 (x (linear cmd_msg)) (y (linear cmd_msg)) (z (angular cmd_msg)).

Definition members (m : Machine) : Vec3 := mkVec3 (m_x_ m) (m_y_ m) (m_rot_ m).

Definition queue_code (A B : Twist) : list Instr :=
  cmdVelCallback_code A ++ cmdVelCallback_code B.

(** Where the command thread stands, what the members hold there and whether
    it owns the mutex. *)
Definition queue_inv (init : Vec3) (A B : Twist) (m : Machine) : Prop :=
  let a := command A in
  let b := command B in
  match queue_pc m with
  | 0%nat => lock m <> Some QueueThread /\ members m = init
  | 1%nat => lock m = Some QueueThread /\ members m = init
  | 2%nat => lock m = Some QueueThread /\ members m = mkVec3 (at0 a) (at1 init) (at2 init)
  | 3%nat => lock m = Some QueueThread /\ members m = mkVec3 (at0 a) (at1 a) (at2 init)
  | 4%nat => lock m = Some QueueThread /\ members m = a
  | 5%nat => lock m <> Some QueueThread /\ members m = a
  | 6%nat => lock m = Some QueueThread /\ members m = a
  | 7%nat => lock m = Some QueueThread /\ members m = mkVec3 (at0 b) (at1 a) (at2 a)
  | 8%nat => lock m = Some QueueThread /\ members m = mkVec3 (at0 b) (at1 b) (at2 a)
  | 9%nat => lock m = Some QueueThread /\ members m = b
  | 10%nat => lock m <> Some QueueThread /\ members m = b
  | _ => False
  end.

(** Where the simulation thread stands in its read; [settled] says that both
    callbacks had returned before the read began. *)
Definition sim_inv (settled : bool) (init : Vec3) (A B : Twist) (m : Machine) : Prop :=
  match sim_pc m with
  | 0%nat => lock m <> Some SimThread
  | 1%nat => lock m = Some SimThread
  | 2%nat => lock m = Some SimThread /\ vx m = Some (m_x_ m)
  | 3%nat => lock m = Some SimThread /\ vx m = Some (m_x_ m) /\ vy m = Some (m_y_ m)
  | 4%nat => lock m = Some SimThread /\
             vx m = Some (m_x_ m) /\ vy m = Some (m_y_ m) /\ va m = Some (m_rot_ m)
  | 5%nat => lock m <> Some SimThread /\
             exists c : Vec3,
               copied m = Some c /\
               if settled then c = command B
               else c = init \/ c = command A \/ c = command B
  | _ => False
  end.

Definition inv (settled : bool) (init : Vec3) (A B : Twist) (m : Machine) : Prop :=
  queue_inv init A B m /\ sim_inv settled init A B m /\
  (settled = true -> queue_pc m = 10%nat).

End Threads.

(** ** Vocabulary for runs of events *)



(** No message is delivered during the events. *)
Fixpoint silent {J : Type} (events : list (Event J)) : bool :=
  match events with
  | [] => true
  | Deliver _ :: _ => false
  | _ :: rest => silent rest
  end.

(** ** The command thread's loop, critical sections, settling joints *)

(** [QueueThread]: one round per evaluation of the loop condition. The
    callback queue and the node are host objects: a round records whether
    [rosnode_->ok()] held, the messages whose callback [callAvailable] ran,
    and whether [FiniChild] (called by the simulation thread) had cleared
    [alive_] by the time the condition is evaluated again. The list of rounds
    is the part of the execution that is observed; the thread returns when
    the condition fails. *)
Record Round : Type := mkRound
  { rosnode_ok : bool; callAvailable : list Twist; FiniChild_called : bool }.

Fixpoint QueueThread {P : Type} (rounds : list Round) (p : Plugin P) : Plugin P :=
  match rounds with
  | [] => p
  | r :: rest =>
      if alive_ p && rosnode_ok r then
        let p := fold_left (fun p cmd_msg => cmdVelCallback cmd_msg p) (callAvailable r) p in
        let p := if FiniChild_called r then FiniChild p else p in
        QueueThread rest p
      else p
  end.


Module ThreadsSections.
Import Threads.

(** A thread at program counter [pc] of [code] is inside a critical section
    when it has run more [lock.lock()] than [lock.unlock()]. *)
Definition is_lock (i : Instr) : bool :=
  match i with lock_lock_i => true | _ => false end.

Definition is_unlock (i : Instr) : bool :=
  match i with lock_unlock_i => true | _ => false end.

Definition inside (code : list Instr) (pc : nat) : bool :=
  Nat.ltb (List.length (filter is_unlock (firstn pc code)))
          (List.length (filter is_lock (firstn pc code))).

Definition finished (A B : Twist) (m : Machine) : bool :=
  Nat.leb (List.length (queue_code A B)) (queue_pc m)
  && Nat.leb (List.length GetPositionCmd_code) (sim_pc m).

End ThreadsSections.

(** A physics update after which every joint turns at its motor target. *)
Definition settle (js : Quad MotorJoint) : Quad MotorJoint :=
  quad_map (fun j => mkMotorJoint (motor_velocity j) (motor_velocity j) (motor_fmax j)) js.

(** An object whose memory holds arbitrary values before construction: the
    lateral command is 7, the other members are those of [raw_object]. *)
Definition scrap_object (J : Type) : Plugin (option J) :=
  mkPlugin (parameters (raw_object J)) false (mkQuad 0 0 0 0) 0
           (mkQuad None None None None) 3 7 5 false (mkVec3 1 2 3) (mkVec3 4 5 6)
           ""%string ""%string zero_position_data [].

(** ** The arithmetic of the kinematics in IEEE binary64

    The assignments of [GetPositionCmd] to [wheelSpeed] and the statements of
    [UpdateChild] from "Distance travelled by wheel" to the assignment of
    [va], operation for operation, on binary64 numbers rounded to nearest:
    what the source's [double] computes. *)
Module Double.
Import Floats.
Local Open Scope float_scope.

Record BodyVelocity : Type := mkBodyVelocity
  { lin_x : float; lin_y : float; ang_z : float }.

Definition wheel_targets (rl rw wd x_ y_ rot_ : float)
    (wheelSpeed : Quad float) : Quad float :=
  let l_total := rl + rw in
  let vx := x_ in
  let vy := y_ in
  let va := rot_ in
  let ws := wheelSpeed in
  let ws := upd ws FRONT_LEFT ((vx + vy - l_total * va) * 2 / wd) in
  let ws := upd ws FRONT_RIGHT ((vx - vy + l_total * va) * 2 / wd) in
  let ws := upd ws BACK_LEFT ((vx - vy - l_total * va) * 2 / wd) in
  let ws := upd ws BACK_RIGHT ((vx + vy + l_total * va) * 2 / wd) in
  ws.

Definition body_velocity (rl rw wd : float) (wheel_velocity : Quad float) : BodyVelocity :=
  let d1 := wd / 2 * idx wheel_velocity FRONT_LEFT in
  let d2 := wd / 2 * idx wheel_velocity FRONT_RIGHT in
  let d3 := wd / 2 * idx wheel_velocity BACK_LEFT in
  let d4 := wd / 2 * idx wheel_velocity BACK_RIGHT in
  let vx := (d1 + d2 + d3 + d4) / 4 in
  let vy := (d1 - d2 - d3 + d4) / 4 in
  let va := 1 / (rl + rw) * (- d1 + d2 - d3 + d4) / 4 in
  mkBodyVelocity vx vy va.

(** 0.15 as a [ParamT<float>] holds it and [**wheelDiamP] hands it to a
    [double]: the binary32 number nearest to 0.15. *)
Definition wheelDiameter_default : float := 0x1.333334p-3.

End Double.

(** * Properties *)

Unset Implicit Arguments.

(** ** Frame lemmas *)

Lemma call_fields {P : Type} (c : HostCall) (p : Plugin P) :
  parameters (call c p) = parameters p /\ joints (call c p) = joints p /\
  odomPose (call c p) = odomPose p /\ odomVel (call c p) = odomVel p /\
  wheelSpeed (call c p) = wheelSpeed p /\ prevUpdateTime (call c p) = prevUpdateTime p.
Proof. repeat split. Qed.

Lemma GetPositionCmd_frame {P : Type} (p : Plugin P) :
  parameters (GetPositionCmd p) = parameters p /\
  joints (GetPositionCmd p) = joints p /\
  odomPose (GetPositionCmd p) = odomPose p /\
  odomVel (GetPositionCmd p) = odomVel p /\
  prevUpdateTime (GetPositionCmd p) = prevUpdateTime p /\
  enableMotors (GetPositionCmd p) = true /\
  host_calls (GetPositionCmd p) = host_calls p ++ [lock_lock; lock_unlock].
Proof.
  unfold GetPositionCmd, call; simpl.
  repeat split. now rewrite <- app_assoc.
Qed.

Lemma GetPositionCmd_wheelSpeed {P : Type} (p : Plugin P) :
  wheelSpeed (GetPositionCmd p) =
  let L := value (robotLength (parameters p)) + value (robotWidth (parameters p)) in
  let wd := value (wheelDiamP (parameters p)) in
  mkQuad ((x_ p - y_ p + L * rot_ p) * 2 / wd)
         ((x_ p + y_ p - L * rot_ p) * 2 / wd)
         ((x_ p + y_ p + L * rot_ p) * 2 / wd)
         ((x_ p - y_ p - L * rot_ p) * 2 / wd).
Proof. reflexivity. Qed.

Lemma cmdVelCallback_frame {P : Type} (cmd_msg : Twist) (p : Plugin P) :
  parameters (cmdVelCallback cmd_msg p) = parameters p /\
  joints (cmdVelCallback cmd_msg p) = joints p /\
  odomPose (cmdVelCallback cmd_msg p) = odomPose p /\
  x_ (cmdVelCallback cmd_msg p) = x (linear cmd_msg) /\
  y_ (cmdVelCallback cmd_msg p) = y (linear cmd_msg) /\
  rot_ (cmdVelCallback cmd_msg p) = z (angular cmd_msg).
Proof. repeat split. Qed.

(** Evaluation of the state-passing code: the object is opened into its
    members and the controller's own definitions are unfolded by value, leaving
    the arithmetic and the host's operations untouched. *)
Ltac open_plugin p :=
  let ps := fresh "ps" in
  destruct p as [ps ? ? ? ? ? ? ? ? ? ? ? ? ? ?];
  destruct ps as [? ? ? ? [? ? ? ?] [? ? ? ?] [? ? ? ?] [? ? ? ?] ? ?].

Ltac eval_plugin :=
  cbv beta iota zeta delta
    - [Rplus Rminus Rmult Rdiv Ropp Rinv IZR cos sin PI Rlt Rle Rgt Rge
       GetVelocity SetVelocity SetMaxForce NORMALIZE app].

(** The step, one member at a time. *)
Lemma UpdateChild_odomVel {J : Type} `{JointHost J} (SimTime : R) (p : Plugin J) :
  odomVel (UpdateChild SimTime p) =
  body_velocity (value (robotLength (parameters p))) (value (robotWidth (parameters p)))
                (value (wheelDiamP (parameters p))) (quad_map GetVelocity (joints p)).
Proof. open_plugin p. eval_plugin. reflexivity. Qed.

Lemma UpdateChild_odomPose {J : Type} `{JointHost J} (SimTime : R) (p : Plugin J) :
  odomPose (UpdateChild SimTime p) =
  let v := body_velocity (value (robotLength (parameters p)))
                         (value (robotWidth (parameters p)))
                         (value (wheelDiamP (parameters p)))
                         (quad_map GetVelocity (joints p)) in
  integrate_pose (odomPose p) (at0 v) (at1 v) (at2 v) (SimTime - prevUpdateTime p).
Proof. open_plugin p. eval_plugin. reflexivity. Qed.

Lemma UpdateChild_yaw {J : Type} `{JointHost J} (SimTime : R) (p : Plugin J) :
  yaw (pose (pos_iface_ (UpdateChild SimTime p))) =
  NORMALIZE (at2 (odomPose (UpdateChild SimTime p))).
Proof. open_plugin p. eval_plugin. reflexivity. Qed.

Lemma UpdateChild_parameters {J : Type} `{JointHost J} (SimTime : R) (p : Plugin J) :
  parameters (UpdateChild SimTime p) = parameters p.
Proof. open_plugin p. eval_plugin. reflexivity. Qed.

Lemma UpdateChild_prevUpdateTime {J : Type} `{JointHost J} (SimTime : R) (p : Plugin J) :
  prevUpdateTime (UpdateChild SimTime p) = SimTime.
Proof. open_plugin p. eval_plugin. reflexivity. Qed.

(** [NORMALIZE] lands in (-pi, pi] and moves the angle by whole turns. *)
Lemma NORMALIZE_range (a : R) : - PI < NORMALIZE a <= PI.
Proof.
  unfold NORMALIZE.
  pose proof PI_RGT_0 as Hpi.
  destruct (archimed ((- a - PI) / (2 * PI))) as [Hlo Hhi].
  set (k := IZR (up ((- a - PI) / (2 * PI)))) in *.
  set (q := (- a - PI) / (2 * PI)) in *.
  assert (Hq : q * (2 * PI) = - a - PI) by (unfold q; field; lra).
  clearbody k q.
  split.
  - assert (q * (2 * PI) < k * (2 * PI)) by (apply Rmult_lt_compat_r; lra). lra.
  - assert (k * (2 * PI) <= (q + 1) * (2 * PI)) by (apply Rmult_le_compat_r; lra). lra.
Qed.

Lemma NORMALIZE_turns (a : R) : exists k : Z, NORMALIZE a = a + 2 * PI * IZR k.
Proof. now exists (up ((- a - PI) / (2 * PI))). Qed.

(** An angle already in the range is left alone. *)
Lemma NORMALIZE_id (a : R) : - PI < a <= PI -> NORMALIZE a = a.
Proof.
  intros Ha. pose proof (NORMALIZE_range a) as Hn.
  destruct (NORMALIZE_turns a) as [k Hk]. rewrite Hk in *.
  pose proof PI_RGT_0 as Hpi.
  assert (Hk0 : k = 0%Z).
  { assert (H1 : -1 < IZR k).
    { apply Rnot_le_lt. intros Hle.
      assert (2 * PI * IZR k <= 2 * PI * -1) by (apply Rmult_le_compat_l; lra). lra. }
    assert (H2 : IZR k < 1).
    { apply Rnot_le_lt. intros Hle.
      assert (2 * PI * 1 <= 2 * PI * IZR k) by (apply Rmult_le_compat_l; lra). lra. }
    apply lt_IZR in H1, H2. lia. }
  subst k. simpl. lra.
Qed.

(** ** Inverse kinematics *)

(** C1. After [GetPositionCmd] each wheel target is
    (vx +/- vy +/- L * omega) * 2 / wheelDiameter with L = length + width, all
    four with +vx, front-left with +vy and -L*omega, front-right with -vy and
    +L*omega, back-left with -vy and -L*omega, back-right with +vy and
    +L*omega; and for the command (1, 0, 0) with a non-zero wheel diameter all
    four targets are 2 / wheelDiameter. *)
Theorem GetPositionCmd_mixing :
  forall (P : Type) (p : Plugin P),
    let L := value (robotLength (parameters p)) + value (robotWidth (parameters p)) in
    let wd := value (wheelDiamP (parameters p)) in
    let ws := wheelSpeed (GetPositionCmd p) in
    (idx ws FRONT_LEFT = (x_ p + y_ p - L * rot_ p) * 2 / wd /\
     idx ws FRONT_RIGHT = (x_ p - y_ p + L * rot_ p) * 2 / wd /\
     idx ws BACK_LEFT = (x_ p - y_ p - L * rot_ p) * 2 / wd /\
     idx ws BACK_RIGHT = (x_ p + y_ p + L * rot_ p) * 2 / wd) /\
    (wd <> 0 -> x_ p = 1 -> y_ p = 0 -> rot_ p = 0 ->
     forall w : Wheel, idx ws w = 2 / wd).
Proof.
  intros P p L wd ws. subst ws. rewrite GetPositionCmd_wheelSpeed. fold L wd.
  split; [repeat split|].
  intros Hwd Hx Hy Hr w. rewrite Hx, Hy, Hr.
  destruct w; simpl; field; exact Hwd.
Qed.

(** The default robot driving straight ahead: every target is 2 / 0.15. *)
Lemma GetPositionCmd_mixing_witness :
  value (wheelDiamP (parameters driving_forward)) <> 0 /\
  idx (wheelSpeed (GetPositionCmd driving_forward)) FRONT_LEFT = 2 / 0.15 /\
  idx (wheelSpeed (GetPositionCmd driving_forward)) FRONT_RIGHT = 2 / 0.15 /\
  idx (wheelSpeed (GetPositionCmd driving_forward)) BACK_LEFT = 2 / 0.15 /\
  idx (wheelSpeed (GetPositionCmd driving_forward)) BACK_RIGHT = 2 / 0.15.
Proof.
  assert (Hwd : value (wheelDiamP (parameters driving_forward)) <> 0)
    by (eval_plugin; lra).
  destruct (GetPositionCmd_mixing MotorJoint driving_forward) as [_ Hforward].
  pose proof (Hforward Hwd eq_refl eq_refl eq_refl) as Hall.
  split; [exact Hwd|].
  repeat split; apply Hall.
Defined.

(** ** Forward kinematics *)

(** C2. A step stores as body velocity vx = (d_fl + d_fr + d_bl + d_br) / 4,
    vy = (d_fl - d_fr - d_bl + d_br) / 4 and
    omega = 1 / L * (- d_fl + d_fr - d_bl + d_br) / 4, where
    d_i = wheelDiameter / 2 * (velocity read from joint i) and
    L = length + width, for every four joint readings. *)
Theorem UpdateChild_forward_kinematics :
  forall (J : Type) (host : JointHost J) (SimTime : R) (p : Plugin J),
    let L := value (robotLength (parameters p)) + value (robotWidth (parameters p)) in
    let wd := value (wheelDiamP (parameters p)) in
    let d_fl := wd / 2 * GetVelocity (idx (joints p) FRONT_LEFT) in
    let d_fr := wd / 2 * GetVelocity (idx (joints p) FRONT_RIGHT) in
    let d_bl := wd / 2 * GetVelocity (idx (joints p) BACK_LEFT) in
    let d_br := wd / 2 * GetVelocity (idx (joints p) BACK_RIGHT) in
    odomVel (UpdateChild SimTime p) =
    mkVec3 ((d_fl + d_fr + d_bl + d_br) / 4)
           ((d_fl - d_fr - d_bl + d_br) / 4)
           (1 / L * (- d_fl + d_fr - d_bl + d_br) / 4).
Proof.
  intros J host SimTime p. rewrite UpdateChild_odomVel.
  destruct (joints p); reflexivity.
Qed.

(** ** Round trip *)

Lemma body_velocity_of_targets {P : Type} (p : Plugin P) :
  value (wheelDiamP (parameters p)) <> 0 ->
  value (robotLength (parameters p)) + value (robotWidth (parameters p)) <> 0 ->
  body_velocity (value (robotLength (parameters p))) (value (robotWidth (parameters p)))
                (value (wheelDiamP (parameters p))) (wheelSpeed (GetPositionCmd p))
  = mkVec3 (x_ p) (y_ p) (rot_ p).
Proof.
  intros Hwd HL. rewrite GetPositionCmd_wheelSpeed.
  unfold body_velocity; simpl. f_equal; field; auto.
Qed.

(** C3, in exact arithmetic. With a non-zero wheel diameter and a non-zero
    length + width, the forward kinematics applied to the wheel targets of the
    inverse kinematics gives back the command (vx, vy, omega), whatever its
    components; hence a step whose joints turn exactly at the targets of the
    current command stores that command as body velocity. *)
Theorem kinematics_round_trip :
  forall (J : Type) (host : JointHost J) (SimTime : R) (p : Plugin J),
    let rl := value (robotLength (parameters p)) in
    let rw := value (robotWidth (parameters p)) in
    let wd := value (wheelDiamP (parameters p)) in
    wd <> 0 -> rl + rw <> 0 ->
    body_velocity rl rw wd (wheelSpeed (GetPositionCmd p)) = mkVec3 (x_ p) (y_ p) (rot_ p) /\
    (quad_map GetVelocity (joints p) = wheelSpeed (GetPositionCmd p) ->
     odomVel (UpdateChild SimTime p) = mkVec3 (x_ p) (y_ p) (rot_ p)).
Proof.
  intros J host SimTime p rl rw wd Hwd HL. subst rl rw wd. split.
  - now apply body_velocity_of_targets.
  - intros Hj. rewrite UpdateChild_odomVel, Hj. now apply body_velocity_of_targets.
Qed.

(** A command with a negative and a fractional component comes back from a
    step of the robot [tracking]. *)
Lemma kinematics_round_trip_witness :
  odomVel (UpdateChild 1 tracking) = mkVec3 1 (-2) 0.5.
Proof.
  assert (Hwd : value (wheelDiamP (parameters tracking)) <> 0)
    by (eval_plugin; lra).
  assert (HL : value (robotLength (parameters tracking))
               + value (robotWidth (parameters tracking)) <> 0)
    by (eval_plugin; lra).
  destruct (kinematics_round_trip MotorJoint _ 1 tracking Hwd HL) as [_ Hstep].
  apply Hstep.
  eval_plugin. f_equal; simpl; lra.
Defined.

Module DoubleFacts.
Import Floats.

(** C3 as stated fails in the arithmetic of the code. With length and width
    0.25 each, the default wheel diameter and the command (0, 0, 0.75), a pure
    rotation, the wheel targets of the inverse kinematics fed to the forward
    kinematics give back vx = 0 and vy = 0 but the rotation rate
    0.7500000000000001 (one unit in the last place above 0.75). *)
Lemma round_trip_inexact_in_binary64 :
  let rl := 0.25%float in
  let rw := 0.25%float in
  let wd := Double.wheelDiameter_default in
  let targets :=
    Double.wheel_targets rl rw wd 0%float 0%float 0.75%float
      (mkQuad 0 0 0 0)%float in
  let back := Double.body_velocity rl rw wd targets in
  PrimFloat.eqb wd 0%float = false /\
  PrimFloat.eqb (PrimFloat.add rl rw) 0%float = false /\
  PrimFloat.eqb (Double.lin_x back) 0%float = true /\
  PrimFloat.eqb (Double.lin_y back) 0%float = true /\
  Double.ang_z back = 0x1.8000000000001p-1%float /\
  PrimFloat.eqb (Double.ang_z back) 0.75%float = false.
Proof. vm_compute. repeat split. Qed.

(** With length + width = 0, which loads, the same statements give a
    rotation rate that is no number when the wheels are at rest (1 / 0 times
    0) and an infinite one when they turn against each other: the reason why
    the statements below about the heading of whole steps ask for a non-zero
    length + width. *)
Lemma zero_sum_rate_not_finite :
  let wd := Double.wheelDiameter_default in
  PrimFloat.is_nan
    (Double.ang_z (Double.body_velocity 0 0 wd (mkQuad 0 0 0 0)))%float = true /\
  PrimFloat.is_infinity
    (Double.ang_z (Double.body_velocity 0 0 wd (mkQuad 1 (-1) 1 (-1))))%float = true.
Proof. vm_compute. split; reflexivity. Qed.

End DoubleFacts.

(** ** Odometry *)

Lemma start_bench (len wd : R) (rates : Quad R) :
  start (node_of (robot len wd rates)) (model_of (robot len wd rates))
  = Ok (bench len wd rates).
Proof. destruct rates. eval_plugin. reflexivity. Qed.

Lemma integrate_pose_zero (o : Vec3) (vx vy va : R) :
  integrate_pose o vx vy va 0 = o.
Proof. destruct o. unfold integrate_pose; simpl. f_equal; ring. Qed.

(** C9. With an elapsed time of 0 the odometry update leaves the pose
    (x, y, theta) as it was and stores the given body velocity
    (vx, vy, omega); so does a whole step taken at the time of the previous
    one when length + width is not zero, the body velocity being the one of
    the joint readings. *)
Theorem zero_dt_keeps_pose :
  (forall (P : Type) (p : Plugin P) (vx vy va : R),
      odomPose (compute_odometry vx vy va 0 p) = odomPose p /\
      odomVel (compute_odometry vx vy va 0 p) = mkVec3 vx vy va) /\
  (forall (J : Type) (host : JointHost J) (p : Plugin J),
      value (robotLength (parameters p)) + value (robotWidth (parameters p)) <> 0 ->
      odomPose (UpdateChild (prevUpdateTime p) p) = odomPose p /\
      odomVel (UpdateChild (prevUpdateTime p) p) =
      body_velocity (value (robotLength (parameters p)))
                    (value (robotWidth (parameters p)))
                    (value (wheelDiamP (parameters p)))
                    (quad_map GetVelocity (joints p))).
Proof.
  split.
  - intros P p vx vy va. split; [|reflexivity].
    unfold compute_odometry, set_odomVel, set_odomPose; simpl.
    apply integrate_pose_zero.
  - intros J host p _. split; [|apply UpdateChild_odomVel].
    rewrite UpdateChild_odomPose. cbv zeta.
    replace (prevUpdateTime p - prevUpdateTime p) with 0 by ring.
    apply integrate_pose_zero.
Qed.

(** The default robot with its wheels turning, stepped at the time of its
    previous update. *)
Lemma zero_dt_keeps_pose_witness :
  let p := bench 0.25 0.15 (mkQuad 2 2 2 2) in
  value (robotLength (parameters p)) + value (robotWidth (parameters p)) <> 0 /\
  odomPose (UpdateChild (prevUpdateTime p) p) = odomPose p.
Proof.
  intros p.
  assert (HL : value (robotLength (parameters p)) + value (robotWidth (parameters p)) <> 0)
    by (eval_plugin; lra).
  split; [exact HL|].
  destruct zero_dt_keeps_pose as [_ Hstep].
  exact (proj1 (Hstep MotorJoint _ p HL)).
Defined.

Lemma run_snoc {J : Type} `{JointHost J} (events : list (Event J)) (e : Event J)
    (p : Plugin J) :
  run (events ++ [e]) p = handle (run events p) e.
Proof. unfold run. now rewrite fold_left_app. Qed.

Lemma UpdateChild_heading {J : Type} `{JointHost J} (SimTime : R) (p : Plugin J) :
  at2 (odomPose (UpdateChild SimTime p)) =
  at2 (odomPose p) + at2 (odomVel (UpdateChild SimTime p)) * (SimTime - prevUpdateTime p).
Proof. rewrite UpdateChild_odomPose, UpdateChild_odomVel. reflexivity. Qed.

(** C4, as the code has it. The stored heading is the plain sum
    theta + omega * dt and is not normalised; what every step normalises is
    the yaw it writes to the position interface, which is
    NORMALIZE(stored heading) and, when length + width is not zero, lies in
    (-pi, pi] after every sequence of events that ends with a step. *)
Theorem published_yaw_normalized :
  forall (J : Type) (host : JointHost J) (events : list (Event J)) (SimTime : R)
         (p : Plugin J),
    let before := run events p in
    let q := run (events ++ [Step SimTime]) p in
    at2 (odomPose q) =
      at2 (odomPose before) + at2 (odomVel q) * (SimTime - prevUpdateTime before) /\
    yaw (pose (pos_iface_ q)) = NORMALIZE (at2 (odomPose q)) /\
    (value (robotLength (parameters p)) + value (robotWidth (parameters p)) <> 0 ->
     - PI < yaw (pose (pos_iface_ q)) <= PI).
Proof.
  intros J host events SimTime p before q.
  assert (Hq : q = UpdateChild SimTime before) by (subst q before; rewrite run_snoc; reflexivity).
  rewrite Hq. split; [apply UpdateChild_heading|].
  split; [apply UpdateChild_yaw|].
  intros _. rewrite UpdateChild_yaw. apply NORMALIZE_range.
Qed.

(** The robot [spinning] stepped at simulated time 5: the stored heading is 5
    and the yaw written to the interface is inside the range. *)
Lemma published_yaw_normalized_witness :
  value (robotLength (parameters spinning)) + value (robotWidth (parameters spinning)) <> 0 /\
  - PI < yaw (pose (pos_iface_ (run ([] ++ [Step 5]) spinning))) <= PI.
Proof.
  assert (HL : value (robotLength (parameters spinning))
               + value (robotWidth (parameters spinning)) <> 0)
    by (eval_plugin; lra).
  split; [exact HL|].
  destruct (published_yaw_normalized MotorJoint _ [] 5 spinning) as (_ & _ & Hrange).
  exact (Hrange HL).
Defined.

(** C4 as stated fails: the robot [spinning], started from its configuration
    and stepped once at simulated time 5, stores the heading 5, which is
    above pi and is not NORMALIZE(0 + 1 * 5). *)
Lemma stored_heading_leaves_range :
  start (node_of (robot 0.5 2 (mkQuad 1 (-1) 1 (-1))))
        (model_of (robot 0.5 2 (mkQuad 1 (-1) 1 (-1)))) = Ok spinning /\
  at2 (odomVel (UpdateChild 5 spinning)) = 1 /\
  at2 (odomPose (UpdateChild 5 spinning)) = 5 /\
  ~ (- PI < at2 (odomPose (UpdateChild 5 spinning)) <= PI) /\
  at2 (odomPose (UpdateChild 5 spinning)) <> NORMALIZE (0 + 1 * 5).
Proof.
  assert (Hv : at2 (odomVel (UpdateChild 5 spinning)) = 1).
  { rewrite UpdateChild_odomVel. unfold spinning, bench, body_velocity; simpl. lra. }
  assert (Hp : at2 (odomPose (UpdateChild 5 spinning)) = 5).
  { rewrite UpdateChild_heading, Hv. unfold spinning, bench; simpl. lra. }
  pose proof PI_4 as Hpi.
  split; [apply start_bench|].
  split; [exact Hv|]. split; [exact Hp|]. rewrite Hp. split.
  - intros [_ Hle]. lra.
  - intros Heq. pose proof (NORMALIZE_range (0 + 1 * 5)) as [_ Hle]. lra.
Qed.

(** ** Order of the operations of a step *)

Lemma UpdateChild_host_calls {J : Type} `{JointHost J} (SimTime : R) (p : Plugin J) :
  let targets := wheelSpeed (GetPositionCmd p) in
  let tq := value (torqueP (parameters p)) in
  exists (rpy : Vec3) (tr : Vector3) (o : Odometry),
    host_calls (UpdateChild SimTime p) =
    host_calls p ++
      [lock_lock; lock_unlock;
       Joint_GetVelocity FRONT_LEFT; Joint_GetVelocity FRONT_RIGHT;
       Joint_GetVelocity BACK_LEFT; Joint_GetVelocity BACK_RIGHT;
       Joint_SetVelocity FRONT_LEFT (idx targets FRONT_LEFT);
       Joint_SetVelocity FRONT_RIGHT (idx targets FRONT_RIGHT);
       Joint_SetVelocity BACK_LEFT (idx targets BACK_LEFT);
       Joint_SetVelocity BACK_RIGHT (idx targets BACK_RIGHT);
       Joint_SetMaxForce FRONT_LEFT tq; Joint_SetMaxForce FRONT_RIGHT tq;
       Joint_SetMaxForce BACK_LEFT tq; Joint_SetMaxForce BACK_RIGHT tq;
       sendTransform rpy tr;
       pub_model_state_publish
         (mkModelState (pose_pose o) (twist_twist o) "robot_description");
       pub_publish o].
Proof.
  open_plugin p. eval_plugin. repeat rewrite <- app_assoc.
  eexists _, _, (mkOdometry _ _). reflexivity.
Qed.

Lemma UpdateChild_joints {J : Type} `{JointHost J} (SimTime : R) (p : Plugin J) (w : Wheel) :
  idx (joints (UpdateChild SimTime p)) w =
  SetMaxForce (SetVelocity (idx (joints p) w) (idx (wheelSpeed (GetPositionCmd p)) w))
              (value (torqueP (parameters p))).
Proof.
  open_plugin p. destruct w; eval_plugin; reflexivity.
Qed.

(** C5, as the code has it. A step reads the command and computes the wheel
    targets, then reads the velocities of the four joints as they are before
    this step's actuation and integrates them into the odometry, and only then
    sets the target velocity and the maximum force of the four joints, and
    publishes: the calls into the host come in exactly that order, the stored
    body velocity is the one of the joints as they were when the step began,
    and every joint ends the step with this step's target and force limit. *)
Theorem step_reads_then_actuates :
  forall (J : Type) (host : JointHost J) (SimTime : R) (p : Plugin J),
    let targets := wheelSpeed (GetPositionCmd p) in
    let tq := value (torqueP (parameters p)) in
    let q := UpdateChild SimTime p in
    (exists (rpy : Vec3) (tr : Vector3) (o : Odometry),
        host_calls q =
        host_calls p ++
          [lock_lock; lock_unlock;
           Joint_GetVelocity FRONT_LEFT; Joint_GetVelocity FRONT_RIGHT;
           Joint_GetVelocity BACK_LEFT; Joint_GetVelocity BACK_RIGHT;
           Joint_SetVelocity FRONT_LEFT (idx targets FRONT_LEFT);
           Joint_SetVelocity FRONT_RIGHT (idx targets FRONT_RIGHT);
           Joint_SetVelocity BACK_LEFT (idx targets BACK_LEFT);
           Joint_SetVelocity BACK_RIGHT (idx targets BACK_RIGHT);
           Joint_SetMaxForce FRONT_LEFT tq; Joint_SetMaxForce FRONT_RIGHT tq;
           Joint_SetMaxForce BACK_LEFT tq; Joint_SetMaxForce BACK_RIGHT tq;
           sendTransform rpy tr;
           pub_model_state_publish
             (mkModelState (pose_pose o) (twist_twist o) "robot_description");
           pub_publish o]) /\
    odomVel q =
      body_velocity (value (robotLength (parameters p)))
                    (value (robotWidth (parameters p)))
                    (value (wheelDiamP (parameters p)))
                    (quad_map GetVelocity (joints p)) /\
    (forall w : Wheel,
        idx (joints q) w = SetMaxForce (SetVelocity (idx (joints p) w) (idx targets w)) tq).
Proof.
  intros J host SimTime p targets tq q. subst q targets tq.
  split; [apply UpdateChild_host_calls|].
  split; [apply UpdateChild_odomVel|].
  intro w. apply UpdateChild_joints.
Qed.

(** C5 as stated fails: in the calls of one step of a freshly started robot,
    the velocity of the front-left joint is read (third call) before that
    joint is actuated (seventh call). *)
Lemma reading_precedes_actuation :
  let p := bench 0.5 2 (mkQuad 0 0 0 0) in
  host_calls p = [] /\
  nth_error (host_calls (UpdateChild 1 p)) 2 = Some (Joint_GetVelocity FRONT_LEFT) /\
  (exists v : R,
      nth_error (host_calls (UpdateChild 1 p)) 6 = Some (Joint_SetVelocity FRONT_LEFT v)) /\
  ~ reads_follow_actuation (host_calls (UpdateChild 1 p)).
Proof.
  intros p.
  destruct (UpdateChild_host_calls 1 p) as (rpy & tr & o & Hc).
  rewrite Hc. clear Hc. simpl.
  split; [reflexivity|]. split; [reflexivity|]. split; [eexists; reflexivity|].
  intros Hclaim.
  specialize (Hclaim 6%nat 2%nat FRONT_LEFT FRONT_LEFT _ eq_refl eq_refl). lia.
Qed.

(** ** Loading *)

(** Loading succeeds as soon as the required parameters and the four joints
    are there; the length entry fills both geometry parameters. *)
Lemma LoadChild_ok {J : Type} (node : XMLConfigNode) (parent0 parent_ : Model J)
    (iface : PositionData) (SimTime : R) (raw p : Plugin (option J)) (s : Setup J) :
  MecanumDrivePlugin (Some parent0) SimTime raw = Ok p ->
  parameters_present node s ->
  joints_present parent_ s ->
  exists q : Plugin J,
    LoadChild node parent_ iface p = Ok q /\
    value (robotLength (parameters q)) = length_entry s /\
    value (robotWidth (parameters q)) = length_entry s /\
    value (wheelDiamP (parameters q)) = wheelDiameter s /\
    value (torqueP (parameters q)) = torque s /\
    joints q = mkQuad (joint_FR s) (joint_FL s) (joint_BR s) (joint_BL s).
Proof.
  intros Hctor (Hfl & Hfr & Hbl & Hbr & Hlen & Hwd & Htq & Htopic) (Jfl & Jfr & Jbl & Jbr).
  unfold MecanumDrivePlugin in Hctor. injection Hctor as <-.
  unfold LoadChild, Load, bind; simpl.
  rewrite Hfl, Hfr, Hbl, Hbr, Hlen, Hwd, Htq; simpl.
  rewrite Jfl, Jfr, Jbl, Jbr, Htopic.
  destruct (GetNodeValue "robotNamespace" (text_children node));
    eexists; (split; [reflexivity|]); simpl; repeat split.
Qed.

(** Conversely a successful load has found every required parameter and every
    joint. *)
Lemma LoadChild_inv {J : Type} (node : XMLConfigNode) (parent0 parent_ : Model J)
    (iface : PositionData) (SimTime : R) (raw p : Plugin (option J)) (q : Plugin J) :
  MecanumDrivePlugin (Some parent0) SimTime raw = Ok p ->
  LoadChild node parent_ iface p = Ok q ->
  exists s : Setup J,
    parameters_present node s /\ joints_present parent_ s /\
    value (robotLength (parameters q)) = length_entry s /\
    value (robotWidth (parameters q)) = length_entry s /\
    joints q = mkQuad (joint_FR s) (joint_FL s) (joint_BR s) (joint_BL s).
Proof.
  intros Hctor Hload.
  unfold MecanumDrivePlugin in Hctor. injection Hctor as <-.
  unfold LoadChild, Load, bind, gzthrow, GetJoint in Hload; simpl in Hload.
  destruct (GetNodeValue "frontLeftJoint" (text_children node)) as [fl|] eqn:Hfl;
    [|discriminate].
  destruct (GetNodeValue "frontRightJoint" (text_children node)) as [fr|] eqn:Hfr;
    [|discriminate].
  destruct (GetNodeValue "backLeftJoint" (text_children node)) as [bl|] eqn:Hbl;
    [|discriminate].
  destruct (GetNodeValue "backRightJoint" (text_children node)) as [br|] eqn:Hbr;
    [|discriminate].
  destruct (GetNodeValue "robotLength" (float_children node)) as [len|] eqn:Hlen;
    [|discriminate].
  destruct (GetNodeValue "wheelDiameter" (float_children node)) as [wd|] eqn:Hwd;
    [|discriminate].
  destruct (GetNodeValue "torque" (float_children node)) as [tq|] eqn:Htq;
    [|discriminate].
  simpl in Hload.
  destruct (GetNodeValue fl parent_) as [jfl|] eqn:Jfl; [|discriminate].
  destruct (GetNodeValue fr parent_) as [jfr|] eqn:Jfr; [|discriminate].
  destruct (GetNodeValue bl parent_) as [jbl|] eqn:Jbl; [|discriminate].
  destruct (GetNodeValue br parent_) as [jbr|] eqn:Jbr; [|discriminate].
  destruct (GetNodeValue "topicName" (text_children node)) as [tn|] eqn:Htopic;
    [|destruct (GetNodeValue "robotNamespace" (text_children node)); discriminate].
  exists (mkSetup fl fr bl br len wd tq tn jfl jfr jbl jbr).
  destruct (GetNodeValue "robotNamespace" (text_children node));
    simpl in Hload; injection Hload as <-;
    unfold parameters_present, joints_present, GetJoint; simpl;
    repeat split; assumption.
Qed.

Lemma LoadChild_missing_joint {J : Type} (node : XMLConfigNode) (parent0 parent_ : Model J)
    (iface : PositionData) (SimTime : R) (raw p : Plugin (option J)) (s : Setup J) :
  MecanumDrivePlugin (Some parent0) SimTime raw = Ok p ->
  parameters_present node s ->
  (GetJoint parent_ (frontLeftJoint s) = None ->
   LoadChild node parent_ iface p =
   gzthrow "The controller couldn't get FRONT LEFT hinge joint") /\
  (GetJoint parent_ (frontLeftJoint s) <> None ->
   GetJoint parent_ (frontRightJoint s) = None ->
   LoadChild node parent_ iface p =
   gzthrow "The controller couldn't get FRONT RIGHT hinge joint") /\
  (GetJoint parent_ (frontLeftJoint s) <> None ->
   GetJoint parent_ (frontRightJoint s) <> None ->
   GetJoint parent_ (backLeftJoint s) = None ->
   LoadChild node parent_ iface p =
   gzthrow "The controller couldn't get BACK LEFT hinge joint") /\
  (GetJoint parent_ (frontLeftJoint s) <> None ->
   GetJoint parent_ (frontRightJoint s) <> None ->
   GetJoint parent_ (backLeftJoint s) <> None ->
   GetJoint parent_ (backRightJoint s) = None ->
   LoadChild node parent_ iface p =
   gzthrow "The controller couldn't get BACK RIGHT hinge joint").
Proof.
  intros Hctor (Hfl & Hfr & Hbl & Hbr & Hlen & Hwd & Htq & Htopic).
  unfold MecanumDrivePlugin in Hctor. injection Hctor as <-.
  unfold LoadChild, Load, bind; simpl.
  rewrite Hfl, Hfr, Hbl, Hbr, Hlen, Hwd, Htq; simpl.
  destruct (GetJoint parent_ (frontLeftJoint s));
    destruct (GetJoint parent_ (frontRightJoint s));
    destruct (GetJoint parent_ (backLeftJoint s));
    destruct (GetJoint parent_ (backRightJoint s));
    repeat split; intros; try reflexivity; try congruence.
Qed.

(** C10. Once the controller is constructed: a load that succeeds has
    acquired all four joints, under the names the node gives them; when the parameters are there and a joint cannot
    be acquired, [LoadChild] raises, with the message of the first joint
    missing in the order front-left, front-right, back-left, back-right, and
    yields no controller; when all four are acquired it goes on and returns
    the controller holding them, each looked up once. *)
Theorem LoadChild_joints_or_fatal :
  forall (J : Type) (node : XMLConfigNode) (parent0 parent_ : Model J)
         (iface : PositionData) (SimTime : R) (raw p : Plugin (option J)),
    MecanumDrivePlugin (Some parent0) SimTime raw = Ok p ->
    (forall q : Plugin J,
        LoadChild node parent_ iface p = Ok q ->
        exists s : Setup J,
          parameters_present node s /\
          joints_present parent_ s /\
          joints q = mkQuad (joint_FR s) (joint_FL s) (joint_BR s) (joint_BL s)) /\
    (forall s : Setup J,
        parameters_present node s ->
        GetJoint parent_ (frontLeftJoint s) = None \/
        GetJoint parent_ (frontRightJoint s) = None \/
        GetJoint parent_ (backLeftJoint s) = None \/
        GetJoint parent_ (backRightJoint s) = None ->
        exists msg : string, LoadChild node parent_ iface p = gzthrow msg) /\
    (forall s : Setup J,
        parameters_present node s ->
        joints_present parent_ s ->
        exists q : Plugin J,
          LoadChild node parent_ iface p = Ok q /\
          joints q = mkQuad (joint_FR s) (joint_FL s) (joint_BR s) (joint_BL s)).
Proof.
  intros J node parent0 parent_ iface SimTime raw p Hctor. split; [|split].
  - intros q Hload.
    destruct (LoadChild_inv _ _ _ _ _ _ _ _ Hctor Hload) as (s & Hp & Hj & _ & _ & Hq).
    now exists s.
  - intros s Hp Hmiss.
    destruct (LoadChild_missing_joint _ _ parent_ iface _ _ _ _ Hctor Hp) as (H1 & H2 & H3 & H4).
    destruct (GetJoint parent_ (frontLeftJoint s)) eqn:E1;
      [|eexists; now apply H1].
    destruct (GetJoint parent_ (frontRightJoint s)) eqn:E2;
      [|eexists; apply H2; congruence].
    destruct (GetJoint parent_ (backLeftJoint s)) eqn:E3;
      [|eexists; apply H3; congruence].
    destruct (GetJoint parent_ (backRightJoint s)) eqn:E4;
      [|eexists; apply H4; congruence].
    destruct Hmiss as [H|[H|[H|H]]]; discriminate.
  - intros s Hp Hj.
    destruct (LoadChild_ok _ _ _ iface _ _ _ _ Hctor Hp Hj) as (q & Hq & _ & _ & _ & _ & Hjs).
    now exists q.
Qed.

(** The default robot loads with its four joints; against an empty model the
    same node is fatal. *)
Lemma LoadChild_joints_or_fatal_witness :
  exists (p : Plugin (option MotorJoint)) (q : Plugin MotorJoint) (msg : string),
    MecanumDrivePlugin (Some []) 0 (raw_object MotorJoint) = Ok p /\
    LoadChild (node_of (robot 0.25 0.15 (mkQuad 0 0 0 0)))
              (model_of (robot 0.25 0.15 (mkQuad 0 0 0 0))) zero_position_data p = Ok q /\
    joints q = mkQuad (mkMotorJoint 0 0 0) (mkMotorJoint 0 0 0)
                      (mkMotorJoint 0 0 0) (mkMotorJoint 0 0 0) /\
    LoadChild (node_of (robot 0.25 0.15 (mkQuad 0 0 0 0))) [] zero_position_data p
    = gzthrow msg.
Proof.
  pose (s := robot 0.25 0.15 (mkQuad 0 0 0 0)).
  assert (Hp : parameters_present (node_of s) s) by (repeat split).
  assert (Hj : joints_present (model_of s) s) by (repeat split).
  eexists.
  pose proof (fun parent_ =>
                @LoadChild_joints_or_fatal MotorJoint (node_of s) [] parent_
                  zero_position_data 0 (raw_object MotorJoint) _ eq_refl) as T.
  destruct (T (model_of s)) as (_ & _ & Hgo).
  destruct (Hgo s Hp Hj) as (q & Hq & Hjs).
  destruct (T []) as (_ & Hfatal & _).
  destruct (Hfatal s Hp (or_introl eq_refl)) as (msg & Hmsg).
  exists q, msg. split; [reflexivity|]. split; [exact Hq|]. split; [exact Hjs|exact Hmsg].
Defined.

(** C8. The constructor declares the width parameter under the key
    "robotLength", the key of the length parameter, with the default 0.27
    where the length has 0.25; so when the configuration node has a
    robotLength entry, both parameters load that entry, and in every
    controller loaded from the node length + width, the divisor of the
    kinematics, is twice the configured length. *)
Theorem width_loads_length_entry :
  forall (J : Type) (node : XMLConfigNode) (parent0 : Model J) (SimTime : R)
         (raw p : Plugin (option J)) (v : R),
    MecanumDrivePlugin (Some parent0) SimTime raw = Ok p ->
    GetNodeValue "robotLength" (float_children node) = Some v ->
    (key (robotWidth (parameters p)) = "robotLength"%string /\
     key (robotLength (parameters p)) = "robotLength"%string /\
     defaultValue (robotWidth (parameters p)) = 0.27 /\
     defaultValue (robotLength (parameters p)) = 0.25 /\
     defaultValue (robotWidth (parameters p)) <> defaultValue (robotLength (parameters p))) /\
    (exists l w : ParamT R,
        Load (float_children node) (robotLength (parameters p)) = Ok l /\
        Load (float_children node) (robotWidth (parameters p)) = Ok w /\
        value l = v /\ value w = v) /\
    (forall (parent_ : Model J) (iface : PositionData) (q : Plugin J),
        LoadChild node parent_ iface p = Ok q ->
        value (robotLength (parameters q)) = v /\
        value (robotWidth (parameters q)) = v /\
        value (robotLength (parameters q)) + value (robotWidth (parameters q)) = 2 * v).
Proof.
  intros J node parent0 SimTime raw p v Hctor Hv. split; [|split].
  - unfold MecanumDrivePlugin in Hctor. injection Hctor as <-. simpl.
    repeat split. lra.
  - unfold MecanumDrivePlugin in Hctor. injection Hctor as <-.
    unfold Load; simpl. rewrite Hv. do 2 eexists. repeat split.
  - intros parent_ iface q Hload.
    destruct (LoadChild_inv _ _ _ _ _ _ _ _ Hctor Hload)
      as (s & (_ & _ & _ & _ & Hlen & _) & _ & Hrl & Hrw & _).
    rewrite Hv in Hlen. injection Hlen as Hlen. subst v.
    rewrite Hrl, Hrw. repeat split. ring.
Qed.

(** A node with a robotLength entry of 0.3 loads with length + width = 0.6. *)
Lemma width_loads_length_entry_witness :
  exists (p : Plugin (option MotorJoint)) (q : Plugin MotorJoint),
    MecanumDrivePlugin (Some []) 0 (raw_object MotorJoint) = Ok p /\
    LoadChild (node_of (robot 0.3 0.15 (mkQuad 0 0 0 0)))
              (model_of (robot 0.3 0.15 (mkQuad 0 0 0 0))) zero_position_data p = Ok q /\
    value (robotLength (parameters q)) + value (robotWidth (parameters q)) = 2 * 0.3.
Proof.
  pose (s := robot 0.3 0.15 (mkQuad 0 0 0 0)).
  eexists. eexists. split; [reflexivity|].
  split; [reflexivity|].
  pose proof (@width_loads_length_entry MotorJoint (node_of s) [] 0
                (raw_object MotorJoint) _ 0.3 eq_refl eq_refl) as (_ & _ & T).
  apply (T (model_of s) zero_position_data). reflexivity.
Defined.

(** ** Geometry is not validated *)

(** C6, as the code has it. [LoadChild] does not look at the geometry: with
    the required parameters and the four joints in place it succeeds also when
    the length entry is 0, the loaded length and width then sum to zero, and
    the steps that follow compute the rotation rate with that zero sum as
    divisor. *)
Theorem zero_sum_geometry_loads :
  forall (J : Type) (host : JointHost J) (node : XMLConfigNode) (parent0 parent_ : Model J)
         (iface : PositionData) (SimTime : R) (raw p : Plugin (option J)) (s : Setup J),
    MecanumDrivePlugin (Some parent0) SimTime raw = Ok p ->
    parameters_present node s ->
    joints_present parent_ s ->
    length_entry s = 0 ->
    exists q : Plugin J,
      LoadChild node parent_ iface p = Ok q /\
      value (robotLength (parameters q)) + value (robotWidth (parameters q)) = 0 /\
      forall now : R,
        odomVel (UpdateChild now (InitChild q)) =
        body_velocity 0 0 (wheelDiameter s)
                      (quad_map GetVelocity
                         (mkQuad (joint_FR s) (joint_FL s) (joint_BR s) (joint_BL s))).
Proof.
  intros J host node parent0 parent_ iface SimTime raw p s Hctor Hp Hj Hzero.
  destruct (LoadChild_ok _ _ _ iface _ _ _ _ Hctor Hp Hj)
    as (q & Hq & Hrl & Hrw & Hwd & _ & Hjs).
  exists q. split; [exact Hq|]. split; [rewrite Hrl, Hrw, Hzero; ring|].
  intros now. rewrite UpdateChild_odomVel.
  change (parameters (InitChild q)) with (parameters q).
  change (joints (InitChild q)) with (joints q).
  now rewrite Hrl, Hrw, Hwd, Hjs, Hzero.
Qed.

(** A node with a robotLength entry of 0 loads. *)
Lemma zero_sum_geometry_loads_witness :
  exists (p : Plugin (option MotorJoint)) (q : Plugin MotorJoint),
    MecanumDrivePlugin (Some []) 0 (raw_object MotorJoint) = Ok p /\
    LoadChild (node_of (robot 0 2 (mkQuad 1 1 1 1)))
              (model_of (robot 0 2 (mkQuad 1 1 1 1))) zero_position_data p = Ok q /\
    value (robotLength (parameters q)) + value (robotWidth (parameters q)) = 0.
Proof.
  pose (s := robot 0 2 (mkQuad 1 1 1 1)).
  assert (Hp : parameters_present (node_of s) s) by (repeat split).
  assert (Hj : joints_present (model_of s) s) by (repeat split).
  eexists.
  destruct (@zero_sum_geometry_loads MotorJoint _ (node_of s) [] (model_of s)
              zero_position_data 0 (raw_object MotorJoint) _ s eq_refl Hp Hj eq_refl)
    as (q & Hq & Hsum & _).
  exists q. split; [reflexivity|]. split; [exact Hq|exact Hsum].
Defined.

(** C6 as stated fails: the configuration with a robotLength entry of 0 and
    its four joints is accepted, the loaded length and width are both 0, and
    the claim that every started controller has a non-zero length + width is
    false. *)
Lemma zero_sum_geometry_not_rejected :
  start (node_of (robot 0 2 (mkQuad 1 1 1 1))) (model_of (robot 0 2 (mkQuad 1 1 1 1)))
  = Ok (bench 0 2 (mkQuad 1 1 1 1)) /\
  value (robotLength (parameters (bench 0 2 (mkQuad 1 1 1 1)))) = 0 /\
  value (robotWidth (parameters (bench 0 2 (mkQuad 1 1 1 1)))) = 0 /\
  ~ (forall (node : XMLConfigNode) (parent_ : Model MotorJoint) (q : Plugin MotorJoint),
        start node parent_ = Ok q ->
        value (robotLength (parameters q)) + value (robotWidth (parameters q)) <> 0).
Proof.
  split; [apply start_bench|]. split; [reflexivity|]. split; [reflexivity|].
  intros Hclaim.
  apply (Hclaim _ _ _ (start_bench 0 2 (mkQuad 1 1 1 1))).
  simpl. ring.
Qed.

(** ** The command buffer *)

Module ThreadsFacts.
Import Threads.

Lemma inv_step (settled : bool) (init : Vec3) (A B : Twist) (m : Machine) (t : Thread) :
  inv settled init A B m ->
  inv settled init A B (step (queue_code A B) GetPositionCmd_code m t).
Proof.
  destruct init as [ix iy ir].
  destruct A as [[ax ay az] [aax aay ar]]. destruct B as [[bx by_ bz] [bax bay br]].
  destruct m as [mx my mr lk qpc spc lx ly la].
  unfold inv, queue_inv, sim_inv, members, command, step, pc_of; simpl.
  intros (Hq & Hs & Hd).
  do 11 (try destruct qpc as [|qpc]); try contradiction;
    do 6 (try destruct spc as [|spc]); try contradiction;
      destruct Hq as [Hlq Hm]; injection Hm as -> -> ->;
        repeat match goal with
               | H : _ /\ _ |- _ => destruct H
               | H : exists _, _ |- _ => destruct H
               end;
        destruct lk as [[|]|]; try congruence;
          destruct t; simpl;
            repeat split; try congruence; try (intros; discriminate); auto.
  all: try (intros E; specialize (Hd E); discriminate).
  all: unfold copied in *; simpl in *.
  all: try (eexists; split; [eassumption|assumption]).
  all: subst; eexists; (split; [reflexivity|]); destruct settled;
    [try (specialize (Hd eq_refl); discriminate); reflexivity|tauto].
Qed.

Lemma inv_run (settled : bool) (init : Vec3) (A B : Twist) (schedule : list Thread)
    (m : Machine) :
  inv settled init A B m ->
  inv settled init A B (run (queue_code A B) GetPositionCmd_code schedule m).
Proof.
  revert m. induction schedule as [|t schedule IH]; intros m Hm; [exact Hm|].
  simpl. apply IH, inv_step, Hm.
Qed.

Lemma inv_boot (init : Vec3) (A B : Twist) : inv false init A B (boot init).
Proof.
  destruct init. unfold inv, queue_inv, sim_inv, boot, members; simpl.
  repeat split; discriminate.
Qed.

(** Once both callbacks have returned and the read has not begun, the
    stronger invariant holds. *)
Lemma inv_settle (init : Vec3) (A B : Twist) (m : Machine) :
  inv false init A B m -> queue_pc m = 10%nat -> sim_pc m = 0%nat ->
  inv true init A B m.
Proof.
  unfold inv, sim_inv. intros (Hq & Hs & _) Hqpc Hspc. rewrite Hspc in *.
  repeat split; auto.
Qed.

Lemma inv_copied (settled : bool) (init : Vec3) (A B : Twist) (m : Machine) :
  inv settled init A B m -> sim_pc m = 5%nat ->
  exists c : Vec3,
    copied m = Some c /\
    if settled then c = command B else c = init \/ c = command A \/ c = command B.
Proof.
  unfold inv, sim_inv. intros (_ & Hs & _) Hspc. rewrite Hspc in Hs. apply Hs.
Qed.

End ThreadsFacts.

(** Run alone, the code of [cmdVelCallback] leaves in the members what the
    function [cmdVelCallback] stores; and the code of [GetPositionCmd] copies
    out the three members of the controller, from which the function
    [GetPositionCmd] computes the wheel targets. *)
Lemma code_agrees {P : Type} (cmd_msg : Twist) (p : Plugin P) (init : Vec3)
    (queue_code : list Threads.Instr) :
  Threads.members
    (Threads.run (Threads.cmdVelCallback_code cmd_msg) []
       (repeat Threads.QueueThread 5) (Threads.boot init))
  = mkVec3 (x_ (cmdVelCallback cmd_msg p)) (y_ (cmdVelCallback cmd_msg p))
           (rot_ (cmdVelCallback cmd_msg p)) /\
  exists c : Vec3,
    Threads.copied
      (Threads.run queue_code Threads.GetPositionCmd_code
         (repeat Threads.SimThread 5) (Threads.boot (mkVec3 (x_ p) (y_ p) (rot_ p))))
    = Some c /\
    c = mkVec3 (x_ p) (y_ p) (rot_ p) /\
    let L := value (robotLength (parameters p)) + value (robotWidth (parameters p)) in
    let wd := value (wheelDiamP (parameters p)) in
    wheelSpeed (GetPositionCmd p)
    = mkQuad ((at0 c - at1 c + L * at2 c) * 2 / wd)
             ((at0 c + at1 c - L * at2 c) * 2 / wd)
             ((at0 c + at1 c + L * at2 c) * 2 / wd)
             ((at0 c - at1 c - L * at2 c) * 2 / wd).
Proof.
  split; [reflexivity|]. eexists. split; [reflexivity|]. split; [reflexivity|].
  cbv zeta. rewrite GetPositionCmd_wheelSpeed. reflexivity.
Qed.

(** C7. The command members are last-write-wins. In the controller, after the
    callbacks for A and then B the members hold B in all three fields and the
    next [GetPositionCmd] reads them: the wheel targets it assigns are the
    mixing of B's three fields. The read of [GetPositionCmd], run as the
    simulation thread, copies out the three members the function computes
    from. With the two threads interleaved in any way, a read that begins
    after both callbacks have returned copies out exactly B, and every
    completed read copies out the initial members, A or B as a whole, never
    fields of two of them; the schedule that runs the callbacks and then the
    read does complete. *)
Theorem command_last_write_wins :
  forall (init : Vec3) (A B : Twist),
    let code := Threads.queue_code A B in
    let read := Threads.GetPositionCmd_code in
    (forall (P : Type) (p : Plugin P),
        let q := cmdVelCallback B (cmdVelCallback A p) in
        let L := value (robotLength (parameters p)) + value (robotWidth (parameters p)) in
        let wd := value (wheelDiamP (parameters p)) in
        let ws := wheelSpeed (GetPositionCmd q) in
        x_ q = x (linear B) /\ y_ q = y (linear B) /\ rot_ q = z (angular B) /\
        x_ (GetPositionCmd q) = x (linear B) /\ y_ (GetPositionCmd q) = y (linear B) /\
        rot_ (GetPositionCmd q) = z (angular B) /\
        idx ws FRONT_LEFT = (x (linear B) + y (linear B) - L * z (angular B)) * 2 / wd /\
        idx ws FRONT_RIGHT = (x (linear B) - y (linear B) + L * z (angular B)) * 2 / wd /\
        idx ws BACK_LEFT = (x (linear B) - y (linear B) - L * z (angular B)) * 2 / wd /\
        idx ws BACK_RIGHT = (x (linear B) + y (linear B) + L * z (angular B)) * 2 / wd) /\
    (forall (P : Type) (p : Plugin P),
        exists c : Vec3,
          Threads.copied
            (Threads.run code read (repeat Threads.SimThread 5)
               (Threads.boot (mkVec3 (x_ p) (y_ p) (rot_ p))))
          = Some c /\
          c = mkVec3 (x_ p) (y_ p) (rot_ p) /\
          let L := value (robotLength (parameters p))
                   + value (robotWidth (parameters p)) in
          let wd := value (wheelDiamP (parameters p)) in
          wheelSpeed (GetPositionCmd p)
          = mkQuad ((at0 c - at1 c + L * at2 c) * 2 / wd)
                   ((at0 c + at1 c - L * at2 c) * 2 / wd)
                   ((at0 c + at1 c + L * at2 c) * 2 / wd)
                   ((at0 c - at1 c - L * at2 c) * 2 / wd)) /\
    (forall sched1 sched2 : list Threads.Thread,
        let m1 := Threads.run code read sched1 (Threads.boot init) in
        let m2 := Threads.run code read sched2 m1 in
        Threads.queue_pc m1 = 10%nat ->
        Threads.sim_pc m1 = 0%nat ->
        Threads.sim_pc m2 = 5%nat ->
        Threads.copied m2 = Some (Threads.command B)) /\
    (forall sched : list Threads.Thread,
        let m := Threads.run code read sched (Threads.boot init) in
        Threads.sim_pc m = 5%nat ->
        Threads.copied m = Some init \/
        Threads.copied m = Some (Threads.command A) \/
        Threads.copied m = Some (Threads.command B)) /\
    (let m1 := Threads.run code read (repeat Threads.QueueThread 10) (Threads.boot init) in
     Threads.queue_pc m1 = 10%nat /\ Threads.sim_pc m1 = 0%nat /\
     Threads.sim_pc (Threads.run code read (repeat Threads.SimThread 5) m1) = 5%nat).
Proof.
  intros init A B code read. subst code read.
  split; [|split; [|split; [|split]]].
  - intros P p. cbv zeta.
    rewrite GetPositionCmd_wheelSpeed. cbv zeta.
    destruct (cmdVelCallback_frame B (cmdVelCallback A p)) as (Hp & _ & _ & Hx & Hy & Hr).
    destruct (cmdVelCallback_frame A p) as (Hp' & _).
    rewrite Hp, Hp', Hx, Hy, Hr.
    repeat split.
  - intros P p.
    exact (proj2 (code_agrees A p init (Threads.queue_code A B))).
  - intros sched1 sched2 m1 m2 Hq Hs Hdone.
    pose proof (ThreadsFacts.inv_run false init A B sched1 _
                  (ThreadsFacts.inv_boot init A B)) as Hinv.
    fold m1 in Hinv.
    pose proof (ThreadsFacts.inv_run true init A B sched2 _
                  (ThreadsFacts.inv_settle init A B m1 Hinv Hq Hs)) as Hinv2.
    fold m2 in Hinv2.
    destruct (ThreadsFacts.inv_copied true init A B m2 Hinv2 Hdone) as (c & Hc & ->).
    exact Hc.
  - intros sched m Hdone.
    pose proof (ThreadsFacts.inv_run false init A B sched _
                  (ThreadsFacts.inv_boot init A B)) as Hinv.
    fold m in Hinv.
    destruct (ThreadsFacts.inv_copied false init A B m Hinv Hdone)
      as (c & Hc & [-> | [-> | ->]]); auto.
  - repeat split.
Qed.

(** The simulation thread tries to read while each callback holds the mutex,
    waits, and reads (4, 5, 6) once both have returned. *)
Lemma command_last_write_wins_witness :
  let A := mkTwist (mkVector3 1 2 0) (mkVector3 0 0 3) in
  let B := mkTwist (mkVector3 4 5 0) (mkVector3 0 0 6) in
  let sched1 :=
    [Threads.QueueThread; Threads.QueueThread; Threads.SimThread; Threads.QueueThread;
     Threads.QueueThread; Threads.QueueThread; Threads.QueueThread; Threads.SimThread;
     Threads.QueueThread; Threads.QueueThread; Threads.QueueThread; Threads.QueueThread] in
  let m1 := Threads.run (Threads.queue_code A B) Threads.GetPositionCmd_code sched1
                        (Threads.boot (mkVec3 0 0 0)) in
  Threads.queue_pc m1 = 10%nat /\
  Threads.copied
    (Threads.run (Threads.queue_code A B) Threads.GetPositionCmd_code
                 (repeat Threads.SimThread 5) m1)
  = Some (mkVec3 4 5 6).
Proof.
  intros A B sched1 m1. split; [reflexivity|].
  destruct (command_last_write_wins (mkVec3 0 0 0) A B) as (_ & _ & Hlast & _).
  apply (Hlast sched1 (repeat Threads.SimThread 5)); reflexivity.
Defined.

(** * Further properties of the code *)

(** ** What a step leaves alone *)

Lemma UpdateChild_command {J : Type} `{JointHost J} (SimTime : R) (p : Plugin J) :
  x_ (UpdateChild SimTime p) = x_ p /\ y_ (UpdateChild SimTime p) = y_ p /\
  rot_ (UpdateChild SimTime p) = rot_ p /\ alive_ (UpdateChild SimTime p) = alive_ p.
Proof. open_plugin p. eval_plugin. repeat split. Qed.

Lemma UpdateChild_wheelSpeed {J : Type} `{JointHost J} (SimTime : R) (p : Plugin J) :
  wheelSpeed (UpdateChild SimTime p) = wheelSpeed (GetPositionCmd p) /\
  enableMotors (UpdateChild SimTime p) = true.
Proof. open_plugin p. eval_plugin. repeat split. Qed.

Lemma run_cons {J : Type} `{JointHost J} (e : Event J) (events : list (Event J))
    (p : Plugin J) :
  run (e :: events) p = run events (handle p e).
Proof. reflexivity. Qed.

(** ** Reset *)



(** ** The command between messages *)

Lemma handle_silent {J : Type} `{JointHost J} (e : Event J) (p : Plugin J) :
  silent [e] = true ->
  parameters (handle p e) = parameters p /\
  x_ (handle p e) = x_ p /\ y_ (handle p e) = y_ p /\ rot_ (handle p e) = rot_ p.
Proof.
  destruct e as [cmd_msg|f|t]; intros Hs; [simpl in Hs; discriminate| |];
    cbv [handle].
  - repeat split.
  - destruct (UpdateChild_command t p) as (Hx & Hy & Hr & _).
    rewrite UpdateChild_parameters. auto.
Qed.

Lemma run_silent {J : Type} `{JointHost J} (events : list (Event J)) (p : Plugin J) :
  silent events = true ->
  parameters (run events p) = parameters p /\
  x_ (run events p) = x_ p /\ y_ (run events p) = y_ p /\ rot_ (run events p) = rot_ p.
Proof.
  revert p. induction events as [|e events IH]; intros p Hs; [repeat split|].
  rewrite run_cons.
  assert (He : silent [e] = true) by (destruct e; [discriminate|reflexivity|reflexivity]).
  assert (Hrest : silent events = true) by (destruct e; [discriminate|exact Hs|exact Hs]).
  destruct (IH (handle p e) Hrest) as (-> & -> & -> & ->).
  now apply handle_silent.
Qed.

Lemma GetPositionCmd_wheelSpeed_ext {P Q : Type} (p : Plugin P) (q : Plugin Q) :
  parameters p = parameters q -> x_ p = x_ q -> y_ p = y_ q -> rot_ p = rot_ q ->
  wheelSpeed (GetPositionCmd p) = wheelSpeed (GetPositionCmd q).
Proof.
  intros Hp Hx Hy Hr. rewrite !GetPositionCmd_wheelSpeed. cbv zeta.
  now rewrite Hp, Hx, Hy, Hr.
Qed.

(** X5. The controller has no command time-out: after a message is delivered,
    however many steps and physics updates follow without a new message, the
    command members still hold that message and the latest step has set the
    wheel targets computed from it. *)
Theorem command_persists :
  forall (J : Type) (host : JointHost J) (cmd_msg : Twist) (events : list (Event J))
         (SimTime : R) (p : Plugin J),
    silent events = true ->
    let q := run (Deliver cmd_msg :: events ++ [Step SimTime]) p in
    x_ q = x (linear cmd_msg) /\ y_ q = y (linear cmd_msg) /\
    rot_ q = z (angular cmd_msg) /\
    wheelSpeed q = wheelSpeed (GetPositionCmd (cmdVelCallback cmd_msg p)).
Proof.
  intros J host cmd_msg events SimTime p Hs q. subst q.
  rewrite run_cons, run_snoc. cbv [handle].
  set (p1 := cmdVelCallback cmd_msg p).
  destruct (run_silent events p1 Hs) as (Hp & Hx & Hy & Hr).
  destruct (UpdateChild_command SimTime (run events p1)) as (-> & -> & -> & _).
  rewrite Hx, Hy, Hr.
  destruct (cmdVelCallback_frame cmd_msg p) as (_ & _ & _ & Hx1 & Hy1 & Hr1).
  fold p1 in Hx1, Hy1, Hr1.
  repeat split; auto.
  rewrite (proj1 (UpdateChild_wheelSpeed SimTime (run events p1))).
  now apply GetPositionCmd_wheelSpeed_ext.
Qed.

Lemma command_persists_witness :
  let cmd_msg := mkTwist (mkVector3 1 0 0) (mkVector3 0 0 0) in
  let p := bench 0.25 0.15 (mkQuad 0 0 0 0) in
  idx (wheelSpeed (run (Deliver cmd_msg :: [Step 1; Physics (fun js => js); Step 2]
                                           ++ [Step 3]) p)) FRONT_LEFT
  = idx (wheelSpeed (GetPositionCmd (cmdVelCallback cmd_msg p))) FRONT_LEFT.
Proof.
  intros cmd_msg p.
  destruct (command_persists MotorJoint _ cmd_msg
              [Step 1; Physics (fun js => js); Step 2] 3 p eq_refl) as (_ & _ & _ & Hw).
  now rewrite Hw.
Defined.

(** X6. Nothing that happens to a loaded controller changes its parameters:
    after any sequence of messages, physics updates and steps the geometry,
    the torque and the joint names are those loaded. *)
Theorem parameters_immutable :
  forall (J : Type) (host : JointHost J) (events : list (Event J)) (p : Plugin J),
    parameters (run events p) = parameters p.
Proof.
  intros J host events. induction events as [|e events IH]; intros p; [reflexivity|].
  rewrite run_cons, IH.
  destruct e as [cmd_msg|f|t]; cbv [handle].
  - apply cmdVelCallback_frame.
  - reflexivity.
  - apply UpdateChild_parameters.
Qed.

(** ** What a step makes public *)

Lemma calls_end_with (earlier middle last : list HostCall) :
  exists l : list HostCall, earlier ++ (middle ++ last) = l ++ last.
Proof. exists (earlier ++ middle). apply app_assoc. Qed.

(** X7. What a step publishes is the dead-reckoning estimate: the position
    interface, the transform, the model state and the odometry message carry
    the stored position, the normalised stored heading and the stored
    velocity of this step; the model state has the pose and twist of the
    odometry message and the name robot_description; roll, pitch and height
    are passed on from the position interface as they were, the time stamp of
    the interface is the simulator's clock and the stall flag is 0. *)
Theorem step_publishes_odometry :
  forall (J : Type) (host : JointHost J) (SimTime : R) (p : Plugin J),
    let q := UpdateChild SimTime p in
    let d0 := pos_iface_ p in
    let rpy := mkVec3 (roll (pose d0)) (pitch (pose d0)) (NORMALIZE (at2 (odomPose q))) in
    let translation :=
      mkVector3 (at0 (odomPose q)) (at1 (odomPose q)) (z (pos (pose d0))) in
    let odom_pose := mkOdomPose (at0 (odomPose q)) (at1 (odomPose q)) rpy in
    let odom_twist :=
      mkOdomTwist (at0 (odomVel q)) (at1 (odomVel q)) (at2 (odomVel q)) in
    (exists earlier : list HostCall,
        host_calls q =
        earlier ++ [sendTransform rpy translation;
                    pub_model_state_publish
                      (mkModelState odom_pose odom_twist "robot_description");
                    pub_publish (mkOdometry odom_pose odom_twist)]) /\
    pos_iface_ q =
      mkPositionData SimTime (mkPose3 translation (roll (pose d0)) (pitch (pose d0))
                                      (NORMALIZE (at2 (odomPose q))))
                     (mkVelocity3 (mkVector3 (at0 (odomVel q)) (at1 (odomVel q))
                                             (z (vel_pos (velocity d0))))
                                  (at2 (odomVel q)))
                     0%Z.
Proof.
  intros J host SimTime p.
  open_plugin p.
  match goal with
  | d : PositionData |- _ =>
      destruct d as [ht [[px py pz] rl pt yw] [[vx vy vz] vyaw] st]
  end.
  eval_plugin. split; [|reflexivity].
  repeat rewrite <- app_assoc.
  apply (calls_end_with _ [_; _; _; _; _; _; _; _; _; _; _; _; _; _] [_; _; _]).
Qed.

(** ** Before the first message *)

Lemma LoadChild_keeps {J : Type} (node : XMLConfigNode) (parent0 parent_ : Model J)
    (iface : PositionData) (SimTime : R) (raw p : Plugin (option J)) (q : Plugin J) :
  MecanumDrivePlugin (Some parent0) SimTime raw = Ok p ->
  LoadChild node parent_ iface p = Ok q ->
  x_ q = 0 /\ y_ q = y_ raw /\ rot_ q = 0 /\
  wheelSpeed q = mkQuad 0 0 0 0 /\ prevUpdateTime q = SimTime /\
  odomPose q = odomPose raw /\ odomVel q = odomVel raw /\ pos_iface_ q = iface.
Proof.
  intros Hctor Hload.
  unfold MecanumDrivePlugin in Hctor. injection Hctor as <-.
  unfold LoadChild, Load, bind, gzthrow, GetJoint in Hload; simpl in Hload.
  destruct (GetNodeValue "frontLeftJoint" (text_children node)) as [fl|];
    [|discriminate].
  destruct (GetNodeValue "frontRightJoint" (text_children node)) as [fr|];
    [|discriminate].
  destruct (GetNodeValue "backLeftJoint" (text_children node)) as [bl|];
    [|discriminate].
  destruct (GetNodeValue "backRightJoint" (text_children node)) as [br|];
    [|discriminate].
  destruct (GetNodeValue "robotLength" (float_children node)) as [len|];
    [|discriminate].
  destruct (GetNodeValue "wheelDiameter" (float_children node)) as [wd|];
    [|discriminate].
  destruct (GetNodeValue "torque" (float_children node)) as [tq|];
    [|discriminate].
  simpl in Hload.
  destruct (GetNodeValue fl parent_); [|discriminate].
  destruct (GetNodeValue fr parent_); [|discriminate].
  destruct (GetNodeValue bl parent_); [|discriminate].
  destruct (GetNodeValue br parent_); [|discriminate].
  destruct (GetNodeValue "robotNamespace" (text_children node));
    destruct (GetNodeValue "topicName" (text_children node));
    try discriminate; simpl in Hload; injection Hload as <-; repeat split.
Qed.

(** X10. The constructor assigns [x_] and [rot_] but not [y_], and neither
    [LoadChild] nor [InitChild] does: until the first message arrives the
    lateral command is whatever the object held before construction, and the
    wheel targets of a step are +/- that value times 2 / wheelDiameter. *)
Theorem lateral_command_unassigned :
  forall (J : Type) (node : XMLConfigNode) (parent0 parent_ : Model J)
         (iface : PositionData) (SimTime : R) (raw p : Plugin (option J)) (q : Plugin J),
    MecanumDrivePlugin (Some parent0) SimTime raw = Ok p ->
    LoadChild node parent_ iface p = Ok q ->
    let ws := wheelSpeed (GetPositionCmd (InitChild q)) in
    let wd := value (wheelDiamP (parameters q)) in
    x_ (InitChild q) = 0 /\ rot_ (InitChild q) = 0 /\ y_ (InitChild q) = y_ raw /\
    idx ws FRONT_LEFT = y_ raw * 2 / wd /\
    idx ws FRONT_RIGHT = - y_ raw * 2 / wd /\
    idx ws BACK_LEFT = - y_ raw * 2 / wd /\
    idx ws BACK_RIGHT = y_ raw * 2 / wd.
Proof.
  intros J node parent0 parent_ iface SimTime raw p q Hctor Hload ws wd. subst ws wd.
  destruct (LoadChild_keeps _ _ _ _ _ _ _ _ Hctor Hload) as (Hx & Hy & Hr & _).
  rewrite GetPositionCmd_wheelSpeed. cbv zeta.
  change (x_ (InitChild q)) with (x_ q). change (y_ (InitChild q)) with (y_ q).
  change (rot_ (InitChild q)) with (rot_ q).
  change (parameters (InitChild q)) with (parameters q).
  rewrite Hx, Hy, Hr. simpl. unfold Rdiv. repeat split; ring.
Qed.

Lemma lateral_command_unassigned_witness :
  exists (p : Plugin (option MotorJoint)) (q : Plugin MotorJoint),
    MecanumDrivePlugin (Some []) 0 (scrap_object MotorJoint) = Ok p /\
    LoadChild (node_of (robot 0.25 0.15 (mkQuad 0 0 0 0)))
              (model_of (robot 0.25 0.15 (mkQuad 0 0 0 0))) zero_position_data p = Ok q /\
    x_ (InitChild q) = 0 /\ rot_ (InitChild q) = 0 /\ y_ (InitChild q) = 7 /\
    idx (wheelSpeed (GetPositionCmd (InitChild q))) FRONT_LEFT = 7 * 2 / 0.15 /\
    idx (wheelSpeed (GetPositionCmd (InitChild q))) FRONT_RIGHT = - 7 * 2 / 0.15.
Proof.
  eexists. eexists. split; [reflexivity|]. split; [reflexivity|].
  destruct (lateral_command_unassigned MotorJoint
              (node_of (robot 0.25 0.15 (mkQuad 0 0 0 0))) []
              (model_of (robot 0.25 0.15 (mkQuad 0 0 0 0))) zero_position_data 0
              (scrap_object MotorJoint) _ _ eq_refl eq_refl)
    as (Hx & Hr & Hy & Hfl & Hfr & _).
  repeat split; assumption.
Defined.

(** ** The command thread *)







(** ** The mutex *)

Lemma reachable_inv (init : Vec3) (A B : Twist) (schedule : list Threads.Thread) :
  Threads.inv false init A B
    (Threads.run (Threads.queue_code A B) Threads.GetPositionCmd_code schedule
                 (Threads.boot init)).
Proof. apply ThreadsFacts.inv_run, ThreadsFacts.inv_boot. Qed.

(** X12. Mutual exclusion: in every state the two threads can reach, the
    mutex is owned by the command thread when that thread is between its
    [lock.lock()] and [lock.unlock()], by the simulation thread when that one
    is, and by nobody otherwise; the two are never inside their critical
    sections at the same time. *)
Theorem mutual_exclusion :
  forall (init : Vec3) (A B : Twist) (schedule : list Threads.Thread),
    let m := Threads.run (Threads.queue_code A B) Threads.GetPositionCmd_code schedule
                         (Threads.boot init) in
    let in_callback :=
      ThreadsSections.inside (Threads.queue_code A B) (Threads.queue_pc m) in
    let in_read :=
      ThreadsSections.inside Threads.GetPositionCmd_code (Threads.sim_pc m) in
    Threads.lock m =
      (if in_callback then Some Threads.QueueThread
       else if in_read then Some Threads.SimThread else None) /\
    in_callback && in_read = false.
Proof.
  intros init A B schedule m in_callback in_read.
  pose proof (reachable_inv init A B schedule) as Hinv. fold m in Hinv.
  subst in_callback in_read. clearbody m.
  destruct m as [mx my mr lk qpc spc lx ly la].
  unfold Threads.inv, Threads.queue_inv, Threads.sim_inv in Hinv.
  simpl in Hinv. destruct Hinv as (Hq & Hs & _).
  unfold ThreadsSections.inside, Threads.queue_code, Threads.cmdVelCallback_code,
    Threads.GetPositionCmd_code. simpl Threads.queue_pc. simpl Threads.sim_pc.
  simpl Threads.lock.
  do 11 (try destruct qpc as [|qpc]); try contradiction;
    do 6 (try destruct spc as [|spc]); try contradiction;
      simpl; destruct Hq as [Hq _];
        repeat match goal with H : _ /\ _ |- _ => destruct H end;
        try congruence;
        (split; [|reflexivity]); try assumption;
        destruct lk as [[|]|]; congruence.
Qed.

(** X13. The two threads cannot block each other for good: in every reachable
    state in which a thread has not finished, some thread can take its next
    instruction; and a state in which both have finished has the mutex free
    and the three members copied out. *)
Theorem no_deadlock :
  forall (init : Vec3) (A B : Twist) (schedule : list Threads.Thread),
    let code := Threads.queue_code A B in
    let read := Threads.GetPositionCmd_code in
    let m := Threads.run code read schedule (Threads.boot init) in
    if ThreadsSections.finished A B m then
      Threads.lock m = None /\ exists c : Vec3, Threads.copied m = Some c
    else
      exists t : Threads.Thread,
        Threads.pc_of t (Threads.step code read m t) = S (Threads.pc_of t m).
Proof.
  intros init A B schedule code read m.
  pose proof (reachable_inv init A B schedule) as Hinv. fold code read m in Hinv.
  subst code read. clearbody m.
  destruct m as [mx my mr lk qpc spc lx ly la].
  unfold Threads.inv, Threads.queue_inv, Threads.sim_inv in Hinv.
  simpl in Hinv. destruct Hinv as (Hq & Hs & _).
  unfold ThreadsSections.finished, Threads.queue_code, Threads.cmdVelCallback_code,
    Threads.GetPositionCmd_code, Threads.step, Threads.pc_of.
  simpl Threads.queue_pc. simpl Threads.sim_pc.
  do 11 (try destruct qpc as [|qpc]); try contradiction;
    do 6 (try destruct spc as [|spc]); try contradiction;
      destruct Hq as [Hq _];
      repeat match goal with
             | H : _ /\ _ |- _ => destruct H
             | H : exists _, _ |- _ => destruct H
             end;
      simpl in *; subst;
      try congruence;
      try (exists Threads.QueueThread; reflexivity);
      try (exists Threads.SimThread; reflexivity);
      try (destruct lk as [[|]|]; try congruence;
           first [ exists Threads.QueueThread; reflexivity
                 | exists Threads.SimThread; reflexivity
                 | split; [reflexivity|eexists; eassumption] ]).
Qed.

(** ** Odometry and actuation across steps *)

Lemma quad_ext {A : Type} (a b : Quad A) :
  (forall w : Wheel, idx a w = idx b w) -> a = b.
Proof.
  intros Hw. destruct a, b.
  pose proof (Hw FRONT_RIGHT) as H1. pose proof (Hw FRONT_LEFT) as H2.
  pose proof (Hw BACK_RIGHT) as H3. pose proof (Hw BACK_LEFT) as H4.
  simpl in *. congruence.
Qed.

Lemma idx_quad_map {A B : Type} (f : A -> B) (q : Quad A) (w : Wheel) :
  idx (quad_map f q) w = f (idx q w).
Proof. destruct w; reflexivity. Qed.

Lemma step_after_settle (first second : Twist) (t2 : R) (p p2 : Plugin MotorJoint) :
  parameters p2 = parameters p ->
  (forall w : Wheel,
      motor_velocity (idx (joints p2) w)
      = idx (wheelSpeed (GetPositionCmd (cmdVelCallback first p))) w) ->
  let q := UpdateChild t2 (cmdVelCallback second (set_joints (settle (joints p2)) p2)) in
  odomVel q
  = body_velocity (value (robotLength (parameters p))) (value (robotWidth (parameters p)))
                  (value (wheelDiamP (parameters p)))
                  (wheelSpeed (GetPositionCmd (cmdVelCallback first p))) /\
  forall w : Wheel,
    motor_velocity (idx (joints q) w)
    = idx (wheelSpeed (GetPositionCmd (cmdVelCallback second p))) w.
Proof.
  intros Hpar2 Hj2 q. subst q.
  set (p4 := cmdVelCallback second (set_joints (settle (joints p2)) p2)).
  assert (Hpar : parameters p4 = parameters p) by exact Hpar2.
  assert (Hr : quad_map GetVelocity (joints p4)
               = wheelSpeed (GetPositionCmd (cmdVelCallback first p))).
  { apply quad_ext. intros w. rewrite <- Hj2.
    change (joints p4) with (settle (joints p2)).
    unfold settle. rewrite !idx_quad_map. reflexivity. }
  split.
  - rewrite UpdateChild_odomVel, Hpar, Hr. reflexivity.
  - intros w. rewrite UpdateChild_joints.
    change (motor_velocity (SetMaxForce (SetVelocity (idx (joints p4) w)
                                           (idx (wheelSpeed (GetPositionCmd p4)) w))
                              (value (torqueP (parameters p4)))))
      with (idx (wheelSpeed (GetPositionCmd p4)) w).
    rewrite (GetPositionCmd_wheelSpeed_ext p4 (cmdVelCallback second p));
      [reflexivity|rewrite Hpar; reflexivity|reflexivity|reflexivity|reflexivity].
Qed.

(** X14. With joints that reach their motor target in the physics update
    between two steps, the second step stores as body velocity the forward
    kinematics of the wheel targets the first step set, those of the command
    in force at the first step and not of the command delivered since; the
    joints leave the second step with the targets of the newer command. *)
Theorem odometry_lags_actuation :
  forall (first second : Twist) (t1 t2 : R) (p : Plugin MotorJoint),
    let q := run [Deliver first; Step t1; Physics settle; Deliver second; Step t2] p in
    odomVel q
    = body_velocity (value (robotLength (parameters p)))
                    (value (robotWidth (parameters p)))
                    (value (wheelDiamP (parameters p)))
                    (wheelSpeed (GetPositionCmd (cmdVelCallback first p))) /\
    forall w : Wheel,
      motor_velocity (idx (joints q) w)
      = idx (wheelSpeed (GetPositionCmd (cmdVelCallback second p))) w.
Proof.
  intros first second t1 t2 p.
  unfold run. cbv [fold_left handle].
  apply step_after_settle.
  - rewrite UpdateChild_parameters. apply cmdVelCallback_frame.
  - intros w. rewrite UpdateChild_joints. reflexivity.
Qed.
